(** * Reservation-Bot: the availability/booking engine and the tool-calling turn

    A shallow embedding of [services/geminiService.ts]: the in-memory
    restaurant store [dummyRestaurantDB], the two tool handlers
    [check_restaurant_availability] and [book_table], and the orchestration
    method [ReservationAgentService.sendMessage].

    Modelling conventions.
    - The store is ambient mutable state, so every function of the source that
      touches it is a computation in the monad [M] (state plus exceptions).
      A thrown exception does not roll the state back.
    - JavaScript objects used as dictionaries are finite maps over their own
      keys.  A key that is not an own key is looked up in [Object.prototype],
      whose members the runtime supplies: [availability[date]] and
      [toolFunctions[name]] find an inherited member there.  The per-day
      object is enumerated by [for ... in], which visits own keys only (the
      members of [Object.prototype] are not enumerable), so it is kept as an
      association list in enumeration order.
    - What the JavaScript runtime and the Gemini SDK contribute (the
      environment variable, [Date] parsing, [Math.random], [Date.now],
      [JSON.stringify], the model's replies) is collected in a [Runtime]
      record over which all definitions are parametrised.
    - The simulated latencies ([setTimeout]) and [console.log] are not part of
      the state.  Each handler's body after its initial delay runs without
      suspension, so handler calls are modelled as atomic steps. *)

From Stdlib Require Import ZArith List String Ascii Sorted Permutation Lia.
From stdpp Require Import base option list gmap strings.

Local Open Scope string_scope.
Local Open Scope list_scope.
Local Open Scope Z_scope.

(** ** JavaScript helpers *)

(** Truthiness of an optional boolean ([undefined] is falsy). *)
Definition truthy (v : option bool) : bool :=
  match v with
  | Some b => b
  | None => false
  end.

(** Truthiness of an optional string ([undefined] and [''] are falsy). *)
Definition truthy_string (v : option string) : bool :=
  match v with
  | Some s => negb (String.eqb s "")
  | None => false
  end.

(** Truthiness of an optional object reference. *)
Definition defined {A} (v : option A) : bool :=
  match v with
  | Some _ => true
  | None => false
  end.

(** [s.toUpperCase()] on ASCII letters. *)
Definition upper_ascii (c : ascii) : ascii :=
  let n := nat_of_ascii c in
  if (Nat.leb 97 n && Nat.leb n 122)%bool then ascii_of_nat (n - 32) else c.

Fixpoint toUpperCase (s : string) : string :=
  match s with
  | EmptyString => EmptyString
  | String c s' => String (upper_ascii c) (toUpperCase s')
  end.

(** [s.substr(start, len)] for non-negative arguments. *)
Definition substr (start len : nat) (s : string) : string :=
  String.substring start len s.

(** [hay.includes(needle)]. *)
Fixpoint includes (hay needle : string) : bool :=
  String.prefix needle hay ||
  match hay with
  | EmptyString => false
  | String _ hay' => includes hay' needle
  end.

(** Rendering of a possibly undefined string inside a template literal. *)
Definition template (v : option string) : string :=
  match v with
  | Some s => s
  | None => "undefined"
  end.

(** ** Data model (types.ts and the store) *)

Record AvailableSlot := mkSlot {
  slot_time : string;
  isAvailable : bool }.

Record RestaurantAvailabilityResult := mkAvailability {
  available : bool;
  availableSlots : option (list AvailableSlot);
  availability_message : option string }.

Record BookingResult := mkBookingResult {
  success : bool;
  confirmationNumber : option string;
  booking_message : option string }.

Record Booking := mkBooking {
  booking_date : string;
  booking_time : string;
  booking_partySize : Z;
  confirmation : string }.

(** One day of the store: time keys in enumeration order, each with its
    flags per party size. *)
Abbreviation Day := (list (string * gmap Z bool)).

Record RestaurantDB := mkDB {
  availability : gmap string Day;
  bookings : list Booking }.

(** [day[time]]: the first entry under that key. *)
Fixpoint day_lookup (day : Day) (time : string) : option (gmap Z bool) :=
  match day with
  | [] => None
  | (k, flags) :: rest =>
      if String.eqb k time then Some flags else day_lookup rest time
  end.

(** [day[time][partySize] = v] on an existing time entry. *)
Fixpoint day_assign (day : Day) (time : string) (partySize : Z) (v : bool) : Day :=
  match day with
  | [] => []
  | (k, flags) :: rest =>
      if String.eqb k time then (k, <[partySize := v]> flags) :: rest
      else (k, flags) :: day_assign rest time partySize v
  end.

(** The keys visited by [for (const slotTime in day)]. *)
Definition day_keys (day : Day) : list string := map fst day.

(** [availability[date]?.[time]?.[partySize]]. *)
Definition slot_flag (d : RestaurantDB) (date time : string) (partySize : Z)
  : option bool :=
  match availability d !! date with
  | None => None
  | Some day =>
      match day_lookup day time with
      | None => None
      | Some flags => flags !! partySize
      end
  end.

Definition slot_available (d : RestaurantDB) (date time : string) (partySize : Z)
  : bool :=
  truthy (slot_flag d date time partySize).

Definition dummyRestaurantDB : RestaurantDB :=
  {| availability :=
       {[ "2024-08-01" :=
            [ ("18:00", {[ 2 := true; 4 := true ]});
              ("18:30", {[ 2 := true; 4 := false ]});
              ("19:00", {[ 2 := true; 4 := true ]});
              ("19:30", {[ 2 := false; 4 := true ]});
              ("20:00", {[ 2 := true; 4 := true ]});
              ("20:30", {[ 2 := true; 4 := false ]}) ];
          "2024-08-02" :=
            [ ("18:00", {[ 2 := true; 4 := true ]});
              ("18:30", {[ 2 := true; 4 := true ]});
              ("19:00", {[ 2 := true; 4 := true ]});
              ("19:30", {[ 2 := true; 4 := true ]});
              ("20:00", {[ 2 := true; 4 := true ]});
              ("20:30", {[ 2 := true; 4 := true ]}) ] ]};
     bookings := [] |}.

(** ** Tool calls, tool results and the chat session *)

Inductive Platform := OpenTable | Tock.

Record Args := mkArgs {
  arg_restaurant_name : option string;
  arg_date : string;
  arg_time : string;
  arg_partySize : Z;
  arg_platform : option Platform }.

Record FunctionCall := mkFunctionCall {
  fc_id : string;
  fc_name : string;
  fc_args : Args }.

(** The value of [toolResult] / [errorResult]. *)
Inductive ToolOutput :=
  | AvailabilityOutput (r : RestaurantAvailabilityResult)
  | BookingOutput (r : BookingResult)
  | ErrorOutput (error : string).

(** What is passed to [chat.sendMessage]: the user's text, or one
    [functionResponse] part. *)
Inductive ChatRequest :=
  | UserMessage (message : string)
  | FunctionResponse (id name : string) (result : ToolOutput).

Record GenerateContentResponse := mkResponse {
  response_text : option string;
  response_functionCalls : option (list FunctionCall) }.

(** The chat session created by [ai.chats.create]: the credential it was
    created with and every request sent through it, oldest first. *)
Record Chat := mkChat {
  chat_apiKey : string;
  chat_requests : list ChatRequest }.

Record FunctionCallMessage := mkFunctionCallMessage {
  fcm_id : string;
  fcm_sender : string;
  fcm_text : string;
  functionCall : string * Args }.

Record ToolResponseMessage := mkToolResponseMessage {
  trm_id : string;
  trm_sender : string;
  trm_text : string;
  toolResponse : string * ToolOutput }.

(** The object returned by [sendMessage]. *)
Record TurnResult := mkTurn {
  text : string;
  functionCalls : option (list FunctionCallMessage);
  toolResponses : option (list ToolResponseMessage) }.

(** A thrown value, as far as the code inspects it. *)
Record Error := mkError { error_message : option string }.

Inductive Completion (A : Type) :=
  | Return (a : A)
  | Throw (e : Error).
Arguments Return {A} a.
Arguments Throw {A} e.

(** What reading a property of a member of [Object.prototype] gives, as far
    as the handlers can tell the results apart: a primitive string, any other
    value (undefined, null, a number, a function, an object), or a getter
    that throws.  A value of the second kind has no property for any party
    size. *)
Inductive Read :=
  | ReadString (s : string)
  | ReadOther
  | ReadThrows.

(** [s[i]] for a primitive string and a number [i]: the character at that
    index, undefined outside the string. *)
Definition string_index (s : string) (i : Z) : option ascii :=
  if i <? 0 then None else String.get (Z.to_nat i) s.

(** One call of [Math.random()], in the two renderings the code uses:
    [`${x}`] and [x.toString(36)]. *)
Record Draw := mkDraw {
  decimal : string;
  base36 : string }.

Record Runtime := mkRuntime {
  (** [process.env.API_KEY] *)
  process_env_API_KEY : option string;
  (** [Object.prototype[name]]: for a name it defines, how the properties of
      that member read; every member is an object or a function, so truthy *)
  Object_prototype : string -> option (string -> Read);
  (** [new Date(`2000-01-01T${t}:00`).getTime()], [None] for [NaN] *)
  Date_getTime : string -> option Z;
  (** the n-th result of [Math.random()] *)
  Math_random : nat -> Draw;
  (** the n-th result of [Date.now()], rendered *)
  Date_now : nat -> string;
  JSON_stringify_args : Args -> string;
  JSON_stringify_result : ToolOutput -> string;
  (** the model's answer to the last request of a session *)
  chat_reply : Chat -> Completion GenerateContentResponse }.

(** ** The state and the monad *)

Record World := mkWorld {
  db : RestaurantDB;
  (** [this.chat] of the service instance *)
  chat : option Chat;
  (** how many times [Math.random()] has been called *)
  randoms : nat;
  (** how many times [Date.now()] has been called *)
  nows : nat }.

Definition M (A : Type) : Type := World -> World * Completion A.

Definition ret {A} (a : A) : M A := fun w => (w, Return a).

Definition throw {A} (e : Error) : M A := fun w => (w, Throw e).

Definition bind {A B} (m : M A) (k : A -> M B) : M B :=
  fun w =>
    match m w with
    | (w', Return a) => k a w'
    | (w', Throw e) => (w', Throw e)
    end.

Definition try_catch {A} (m : M A) (handler : Error -> M A) : M A :=
  fun w =>
    match m w with
    | (w', Return a) => (w', Return a)
    | (w', Throw e) => handler e w'
    end.

Definition gets {A} (f : World -> A) : M A := fun w => (w, Return (f w)).

Definition modify (f : World -> World) : M unit := fun w => (f w, Return tt).

Notation "'let!' x ':=' m 'in' k" := (bind m (fun x => k))
  (at level 10, x pattern, m at level 100, k at level 200).
Notation "'do!' m 'in' k" := (bind m (fun _ => k))
  (at level 10, m at level 100, k at level 200).

Definition set_db (d : RestaurantDB) (w : World) : World :=
  {| db := d; chat := chat w; randoms := randoms w; nows := nows w |}.

Definition set_chat (c : option Chat) (w : World) : World :=
  {| db := db w; chat := c; randoms := randoms w; nows := nows w |}.

Definition TypeError (msg : string) : Error := {| error_message := Some msg |}.

(** ** The tool handlers *)

Section Handlers.

Variable rt : Runtime.

(** [Math.random()] *)
Definition next_random : M Draw :=
  fun w =>
    ({| db := db w; chat := chat w; randoms := S (randoms w); nows := nows w |},
     Return (Math_random rt (randoms w))).

(** [Date.now()] *)
Definition next_now : M string :=
  fun w =>
    ({| db := db w; chat := chat w; randoms := randoms w; nows := S (nows w) |},
     Return (Date_now rt (nows w))).

(** [diffMinutes <= 30], where [diffMinutes] is
    [Math.abs((slot - requested) / (1000 * 60))]; a comparison with [NaN] is
    false.  Both operands are whole milliseconds, so the test is the exact
    one on integers. *)
Definition within_30_minutes (slotDateTime requestedTime : option Z) : bool :=
  match slotDateTime, requestedTime with
  | Some a, Some b => Z.abs (a - b) <=? 30 * (1000 * 60)
  | _, _ => false
  end.

(** The body of the [for ... in] loop: one [push] per key within range. *)
Definition scan_step (dayAvailability : Day) (partySize : Z)
    (requestedTime : option Z) (availableSlots : list AvailableSlot)
    (slotTime : string) : list AvailableSlot :=
  if within_30_minutes (Date_getTime rt slotTime) requestedTime then
    if truthy (match day_lookup dayAvailability slotTime with
               | Some flags => flags !! partySize
               | None => None
               end)
    then availableSlots ++ [ {| slot_time := slotTime; isAvailable := true |} ]
    else availableSlots ++ [ {| slot_time := slotTime; isAvailable := false |} ]
  else availableSlots.

Definition scan_day (dayAvailability : Day) (partySize : Z)
    (requestedTime : option Z) : list AvailableSlot :=
  fold_left (scan_step dayAvailability partySize requestedTime)
            (day_keys dayAvailability) [].

(** The comparator [(a, b) => timeA - timeB]; a [NaN] difference counts as 0. *)
Definition compare_slots (a b : AvailableSlot) : Z :=
  match Date_getTime rt (slot_time a), Date_getTime rt (slot_time b) with
  | Some timeA, Some timeB => timeA - timeB
  | _, _ => 0
  end.

(** [Array.prototype.sort] with that comparator: a stable sort. *)
Fixpoint insert_slot (x : AvailableSlot) (l : list AvailableSlot)
  : list AvailableSlot :=
  match l with
  | [] => [x]
  | y :: l' =>
      if compare_slots x y <=? 0 then x :: y :: l' else y :: insert_slot x l'
  end.

Fixpoint sort_slots (l : list AvailableSlot) : list AvailableSlot :=
  match l with
  | [] => []
  | x :: l' => insert_slot x (sort_slots l')
  end.

(** [dummyRestaurantDB.availability[date]]: the day stored under that key,
    or else the member of [Object.prototype] of that name, or undefined. *)
Inductive DayValue :=
  | OwnDay (day : Day)
  | InheritedMember (read : string -> Read).

Definition lookup_date (d : RestaurantDB) (date : string) : option DayValue :=
  match availability d !! date with
  | Some day => Some (OwnDay day)
  | None =>
      match Object_prototype rt date with
      | Some read => Some (InheritedMember read)
      | None => None
      end
  end.

(** [dayAvailability[time]?.[partySize] || false].  On a stored day a time
    key that is not its own is undefined or an inherited member, and neither
    has a flag. *)
Definition requested_flag (dayAvailability : DayValue) (time : string)
    (partySize : Z) : M bool :=
  match dayAvailability with
  | OwnDay day =>
      ret (truthy (match day_lookup day time with
                   | Some flags => flags !! partySize
                   | None => None
                   end))
  | InheritedMember read =>
      match read time with
      | ReadString s => ret (defined (string_index s partySize))
      | ReadOther => ret false
      | ReadThrows =>
          throw (TypeError "'caller', 'callee', and 'arguments' properties may not be accessed")
      end
  end.

(** The [for ... in] loop over [dayAvailability]; a member of
    [Object.prototype] has no enumerable property. *)
Definition scan (dayAvailability : DayValue) (partySize : Z)
    (requestedTime : option Z) : list AvailableSlot :=
  match dayAvailability with
  | OwnDay day => scan_day day partySize requestedTime
  | InheritedMember _ => []
  end.

Definition check_restaurant_availability
    (restaurant_name : option string) (date time : string) (partySize : Z)
    (platform : option Platform) : M RestaurantAvailabilityResult :=
  let! d := gets db in
  match lookup_date d date with
  | None =>
      ret {| available := false; availableSlots := None;
             availability_message := Some "No availability found for this date." |}
  | Some dayAvailability =>
      let! requestedSlotAvailable :=
        requested_flag dayAvailability time partySize in
      let requestedTime := Date_getTime rt time in
      let availableSlots := scan dayAvailability partySize requestedTime in
      let availableSlots := sort_slots availableSlots in
      let actuallyAvailableSlots := List.filter isAvailable availableSlots in
      if requestedSlotAvailable then
        ret {| available := true;
               availableSlots := Some [ {| slot_time := time; isAvailable := true |} ];
               availability_message := Some "Slot is available." |}
      else if (0 <? length actuallyAvailableSlots)%nat then
        ret {| available := false;
               availableSlots := Some actuallyAvailableSlots;
               availability_message :=
                 Some "Requested slot unavailable, but other nearby slots are available." |}
      else
        ret {| available := false; availableSlots := None;
               availability_message :=
                 Some "No suitable slots found within 30 minutes of your requested time." |}
  end.

(** [dummyRestaurantDB.availability[date][time][partySize] = v]: a
    [TypeError] when [availability[date]] or [availability[date][time]] is
    undefined. *)
Definition assign_flag (date time : string) (partySize : Z) (v : bool) : M unit :=
  fun w =>
    match availability (db w) !! date with
    | None => (w, Throw (TypeError "Cannot read properties of undefined"))
    | Some day =>
        match day_lookup day time with
        | None => (w, Throw (TypeError "Cannot set properties of undefined"))
        | Some _ =>
            (set_db {| availability :=
                         <[date := day_assign day time partySize v]> (availability (db w));
                       bookings := bookings (db w) |} w,
             Return tt)
        end
    end.

(** [dummyRestaurantDB.bookings.push(b)] *)
Definition push_booking (b : Booking) : M unit :=
  modify (fun w =>
    set_db {| availability := availability (db w);
              bookings := bookings (db w) ++ [b] |} w).

(** [`RES-${r.toString(36).substr(2, 9).toUpperCase()}`] *)
Definition confirmation_of (r : Draw) : string :=
  "RES-" +:+ toUpperCase (substr 2 9 (base36 r)).

Definition slot_unavailable : BookingResult :=
  {| success := false; confirmationNumber := None;
     booking_message :=
       Some "The requested slot is no longer available or never existed." |}.

Definition book_table
    (restaurant_name : option string) (date time : string) (partySize : Z)
  : M BookingResult :=
  let! d := gets db in
  match lookup_date d date with
  | Some (InheritedMember read) =>
      (* [dayAvailability] is a member of [Object.prototype]: truthy *)
      match read time with
      | ReadThrows =>
          throw (TypeError "'caller', 'callee', and 'arguments' properties may not be accessed")
      | ReadOther =>
          (* falsy, or a value without a property for the party size *)
          ret slot_unavailable
      | ReadString s =>
          if negb (defined (string_index s partySize)) then ret slot_unavailable
          else
            (* the guard is passed; the assignment of line 120 is to an index
               of a primitive string, which strict-mode code may not write *)
            throw (TypeError "Cannot assign to read only property of string")
      end
  | own =>
      (* a stored day, or undefined; on a stored day a time key that is not
         its own is undefined or an inherited member without a flag, and
         the guard rejects both *)
      let dayAvailability :=
        match own with
        | Some (OwnDay day) => Some day
        | _ => None
        end in
      let timeEntry :=
        match dayAvailability with
        | Some day => day_lookup day time
        | None => None
        end in
      let flag :=
        match timeEntry with
        | Some flags => flags !! partySize
        | None => None
        end in
      if negb (defined dayAvailability) || negb (defined timeEntry)
         || negb (truthy flag)
      then ret slot_unavailable
      else
        do! assign_flag date time partySize false in
        let! r := next_random in
        let confirmationNumber := confirmation_of r in
        do! push_booking {| booking_date := date; booking_time := time;
                            booking_partySize := partySize;
                            confirmation := confirmationNumber |} in
        ret {| success := true; confirmationNumber := Some confirmationNumber;
               booking_message := Some "Booking successful." |}
  end.

End Handlers.

(** ** The reservation agent service *)

(** The two entries of [toolFunctions]. *)
Inductive ToolFunction :=
  | check_restaurant_availability_fn
  | book_table_fn.

Definition toolFunctions : gmap string ToolFunction :=
  {[ "check_restaurant_availability" := check_restaurant_availability_fn;
     "book_table" := book_table_fn ]}.

(** [chatResponse.text || ''] *)
Definition or_empty (t : option string) : string :=
  match t with
  | Some s => s
  | None => ""
  end.

Definition credential_message : string :=
  "I encountered an issue processing your request. Please try again or re-select your API key if prompted.".

(** The test of the [catch] block:
    [error.message && error.message.includes("400 Bad Request") &&
     error.message.includes("requested entity was not found")]. *)
Definition entity_not_found (error : Error) : bool :=
  match error_message error with
  | Some m =>
      negb (String.eqb m "") && includes m "400 Bad Request"
      && includes m "requested entity was not found"
  | None => false
  end.

(** What one iteration of the [for ... of] loop does to the control flow. *)
Inductive LoopStep :=
  | ReturnFromLoop (r : TurnResult)
  | NextIteration (functionCalls : list FunctionCallMessage)
                  (toolResponses : list ToolResponseMessage).

Section Service.

Variable rt : Runtime.

Definition getApiKey : M string :=
  let apiKey := process_env_API_KEY rt in
  if negb (truthy_string apiKey) then
    throw {| error_message := Some "API_KEY is not defined in environment variables." |}
  else ret (or_empty apiKey).

(** [new GoogleGenAI({ apiKey })] followed by [ai.chats.create(...)]: a fresh
    session; the SDK calls themselves are taken not to throw. *)
Definition initChat : M unit :=
  let! apiKey := getApiKey in
  modify (set_chat (Some {| chat_apiKey := apiKey; chat_requests := [] |})).

(** [new ReservationAgentService()]: the field initialiser, then the
    constructor body. *)
Definition new_ReservationAgentService : M unit :=
  do! modify (set_chat None) in
  initChat.

(** [this.chat!.sendMessage(request)] *)
Definition chat_sendMessage (request : ChatRequest) : M GenerateContentResponse :=
  fun w =>
    match chat w with
    | None => (w, Throw (TypeError "Cannot read properties of null"))
    | Some c =>
        let c' := {| chat_apiKey := chat_apiKey c;
                     chat_requests := chat_requests c ++ [request] |} in
        (set_chat (Some c') w, chat_reply rt c')
    end.

(** [`${prefix}-${Date.now()}-${Math.random()}`] *)
Definition fresh_id (prefix : string) : M string :=
  let! now := next_now rt in
  let! r := next_random rt in
  ret (prefix +:+ "-" +:+ now +:+ "-" +:+ decimal r).

(** [await this.toolFunctions[functionName](...)] in the two dispatch arms. *)
Definition call_tool (f : ToolFunction) (restaurant_name : option string)
    (date time : string) (partySize : Z) (platform : option Platform)
  : M ToolOutput :=
  match f with
  | check_restaurant_availability_fn =>
      let! r := check_restaurant_availability rt restaurant_name date time
                  partySize platform in
      ret (AvailabilityOutput r)
  | book_table_fn =>
      let! r := book_table rt restaurant_name date time partySize in
      ret (BookingOutput r)
  end.

(** The test [if (this.toolFunctions[functionName])]: an own entry, or a
    member of [Object.prototype] found through the prototype chain. *)
Definition registry_has (functionName : string) : bool :=
  defined (toolFunctions !! functionName)
  || defined (Object_prototype rt functionName).

(** [this.toolFunctions[functionName](...)] inside a dispatch arm. *)
Definition call_registered (functionName : string)
    (restaurant_name : option string) (date time : string) (partySize : Z)
    (platform : option Platform) : M ToolOutput :=
  match toolFunctions !! functionName with
  | Some f => call_tool f restaurant_name date time partySize platform
  | None => throw (TypeError "this.toolFunctions[functionName] is not a function")
  end.

(** The dispatch chain of the branch taken when the registry test succeeds. *)
Definition run_tool (functionName : string) (functionArgs : Args)
  : M ToolOutput :=
  if String.eqb functionName "check_restaurant_availability" then
    call_registered functionName
      (arg_restaurant_name functionArgs) (arg_date functionArgs)
      (arg_time functionArgs) (arg_partySize functionArgs)
      (arg_platform functionArgs)
  else if String.eqb functionName "book_table" then
    call_registered functionName
      (arg_restaurant_name functionArgs) (arg_date functionArgs)
      (arg_time functionArgs) (arg_partySize functionArgs) None
  else
    ret (ErrorOutput ("Function " +:+ functionName +:+ " not handled.")).

Definition loop_body (fc : FunctionCall)
    (functionCalls : list FunctionCallMessage)
    (toolResponses : list ToolResponseMessage) : M LoopStep :=
  let functionName := fc_name fc in
  let functionArgs := fc_args fc in
  let! id := fresh_id "fc" in
  let functionCalls :=
    functionCalls ++
    [ {| fcm_id := id; fcm_sender := "tool";
         fcm_text := "Calling tool: " +:+ functionName +:+ " with arguments: "
                     +:+ JSON_stringify_args rt functionArgs;
         functionCall := (functionName, functionArgs) |} ] in
  if registry_has functionName then
      let! toolResult := run_tool functionName functionArgs in
      let! id := fresh_id "tr" in
      let toolResponses :=
        toolResponses ++
        [ {| trm_id := id; trm_sender := "tool";
             trm_text := "Tool " +:+ functionName +:+ " responded: "
                         +:+ JSON_stringify_result rt toolResult;
             toolResponse := (functionName, toolResult) |} ] in
      let! toolResponseResult :=
        chat_sendMessage (FunctionResponse (fc_id fc) (fc_name fc) toolResult) in
      let finalAgentText := or_empty (response_text toolResponseResult) in
      ret (ReturnFromLoop {| text := finalAgentText;
                             functionCalls := Some functionCalls;
                             toolResponses := Some toolResponses |})
  else
      let errorResult :=
        ErrorOutput ("Function " +:+ functionName +:+ " not found.") in
      let! id := fresh_id "tr" in
      let toolResponses :=
        toolResponses ++
        [ {| trm_id := id; trm_sender := "tool";
             trm_text := "Tool " +:+ functionName +:+ " responded with error: "
                         +:+ JSON_stringify_result rt errorResult;
             toolResponse := (functionName, errorResult) |} ] in
      let! toolErrorResponse :=
        chat_sendMessage (FunctionResponse (fc_id fc) (fc_name fc) errorResult) in
      let errorAgentText := or_empty (response_text toolErrorResponse) in
      ret (ReturnFromLoop {| text := errorAgentText;
                             functionCalls := Some functionCalls;
                             toolResponses := Some toolResponses |}).

(** [for (const fc of chatResponse.functionCalls) { ... }] followed by the
    statement after the loop. *)
Fixpoint for_of (agentText : string) (calls : list FunctionCall)
    (functionCalls : list FunctionCallMessage)
    (toolResponses : list ToolResponseMessage) : M TurnResult :=
  match calls with
  | [] =>
      ret {| text := agentText; functionCalls := Some functionCalls;
             toolResponses := Some toolResponses |}
  | fc :: rest =>
      let! step := loop_body fc functionCalls toolResponses in
      match step with
      | ReturnFromLoop r => ret r
      | NextIteration functionCalls toolResponses =>
          for_of agentText rest functionCalls toolResponses
      end
  end.

(** The [catch] block. *)
Definition on_error (error : Error) : M TurnResult :=
  if entity_not_found error then
    ret {| text := credential_message; functionCalls := None;
           toolResponses := None |}
  else
    ret {| text := "Sorry, I encountered an error: "
                   +:+ template (error_message error);
           functionCalls := None; toolResponses := None |}.

Definition sendMessage (userMessage : string) : M TurnResult :=
  let! c := gets chat in
  do! (if negb (defined c) then initChat else ret tt) in
  try_catch
    (let! chatResponse := chat_sendMessage (UserMessage userMessage) in
     let agentText := or_empty (response_text chatResponse) in
     match response_functionCalls chatResponse with
     | Some calls => for_of agentText calls [] []
     | None => for_of agentText [] [] []
     end)
    on_error.

End Service.

(** ** Sequences of handler calls *)

Section Runs.

Variable rt : Runtime.

(** One handler call: which handler, and its arguments. *)
Definition handle (call : ToolFunction * Args) : M ToolOutput :=
  let (f, a) := call in
  call_tool rt f (arg_restaurant_name a) (arg_date a) (arg_time a)
    (arg_partySize a) (arg_platform a).

(** The states reached after each call of a sequence, in order. *)
Fixpoint run_calls (calls : list (ToolFunction * Args)) (w : World) : list World :=
  match calls with
  | [] => []
  | call :: rest =>
      let w' := fst (handle call w) in
      w' :: run_calls rest w'
  end.

(** The state after the whole sequence. *)
Fixpoint final_world (calls : list (ToolFunction * Args)) (w : World) : World :=
  match calls with
  | [] => w
  | call :: rest => final_world rest (fst (handle call w))
  end.

End Runs.

(** The number of places where a sequence of flag values goes from [true] to
    [false]. *)
Fixpoint falls (flags : list bool) : nat :=
  match flags with
  | true :: ((false :: _) as rest) => S (falls rest)
  | _ :: rest => falls rest
  | [] => 0%nat
  end.

(** The booking request for a slot, as a handler call. *)
Definition book_call (date time : string) (partySize : Z) : ToolFunction * Args :=
  (book_table_fn,
   {| arg_restaurant_name := None; arg_date := date; arg_time := time;
      arg_partySize := partySize; arg_platform := None |}).

Definition check_call (date time : string) (partySize : Z) : ToolFunction * Args :=
  (check_restaurant_availability_fn,
   {| arg_restaurant_name := None; arg_date := date; arg_time := time;
      arg_partySize := partySize; arg_platform := None |}).

(** ** A concrete runtime for running the model *)

Definition digit_value (c : ascii) : option Z :=
  let n := nat_of_ascii c in
  if (Nat.leb 48 n && Nat.leb n 57)%bool then Some (Z.of_nat (n - 48)) else None.

(** Milliseconds after local midnight for a time of day; 24:00 is the next
    midnight. *)
Definition time_of_day (hours minutes : Z) : option Z :=
  if ((hours <=? 23) && (minutes <=? 59)) || ((hours =? 24) && (minutes =? 0))
  then Some ((hours * 60 + minutes) * (60 * 1000))
  else None.

(** [new Date(`2000-01-01T${t}:00`).getTime()] in milliseconds after local
    midnight, for the two shapes of [t] that make the argument a date-time
    string of the language: [HH:MM] (read as [HH:MM:00]) and [HH] (read as
    [HH:00]).  Every other string is taken to give an invalid date. *)
Definition clock_ms (t : string) : option Z :=
  match t with
  | String h1 (String h2 (String ":" (String m1 (String m2 EmptyString)))) =>
      match digit_value h1, digit_value h2, digit_value m1, digit_value m2 with
      | Some a, Some b, Some c, Some d => time_of_day (10 * a + b) (10 * c + d)
      | _, _, _, _ => None
      end
  | String h1 (String h2 EmptyString) =>
      match digit_value h1, digit_value h2 with
      | Some a, Some b => time_of_day (10 * a + b) 0
      | _, _ => None
      end
  | _ => None
  end.

(** The function-valued members of [Object.prototype], each with the value
    of its own [name] property. *)
Definition Object_prototype_functions : list (string * string) :=
  [ ("constructor", "Object");
    ("__defineGetter__", "__defineGetter__");
    ("__defineSetter__", "__defineSetter__");
    ("hasOwnProperty", "hasOwnProperty");
    ("__lookupGetter__", "__lookupGetter__");
    ("__lookupSetter__", "__lookupSetter__");
    ("isPrototypeOf", "isPrototypeOf");
    ("propertyIsEnumerable", "propertyIsEnumerable");
    ("toString", "toString");
    ("valueOf", "valueOf");
    ("toLocaleString", "toLocaleString") ].

(** Reading a property of a built-in function: [name] is a string, [caller]
    and [arguments] are the throwing accessors of [Function.prototype], and
    everything else is undefined, a number, a function or an object. *)
Definition read_function (name key : string) : Read :=
  if String.eqb key "name" then ReadString name
  else if String.eqb key "caller" || String.eqb key "arguments" then ReadThrows
  else ReadOther.

Fixpoint assoc (key : string) (l : list (string * string)) : option string :=
  match l with
  | [] => None
  | (k, v) :: rest => if String.eqb k key then Some v else assoc key rest
  end.

(** [Object.prototype[name]] as the language defines it: the eleven
    functions above, and [__proto__], whose getter on a plain object returns
    [Object.prototype] itself, an object without string-valued or throwing
    properties. *)
Definition es_Object_prototype (name : string) : option (string -> Read) :=
  match assoc name Object_prototype_functions with
  | Some function_name => Some (read_function function_name)
  | None =>
      if String.eqb name "__proto__" then Some (fun _ => ReadOther) else None
  end.

Definition no_text : GenerateContentResponse :=
  {| response_text := None; response_functionCalls := None |}.

(** A runtime given by the credential, the sequence of random draws and the
    model's scripted replies (the n-th request gets the n-th reply). *)
Definition scripted (key : option string) (draws : list Draw)
    (replies : list (Completion GenerateContentResponse)) : Runtime :=
  {| process_env_API_KEY := key;
     Object_prototype := es_Object_prototype;
     Date_getTime := clock_ms;
     Math_random := fun n => nth n draws {| decimal := "0"; base36 := "0" |};
     Date_now := fun _ => "1722500000000";
     JSON_stringify_args := fun _ => "{}";
     JSON_stringify_result := fun _ => "{}";
     chat_reply := fun c =>
       nth (length (chat_requests c) - 1) replies (Return no_text) |}.

Definition initial_world : World :=
  {| db := dummyRestaurantDB; chat := None; randoms := 0; nows := 0 |}.

(** ** Notions used in the statements *)

(** The store after [availability[date][time][partySize] = false]. *)
Definition cleared (d : RestaurantDB) (date time : string) (partySize : Z)
    (day : Day) : gmap string Day :=
  <[date := day_assign day time partySize false]> (availability d).

Section Vocabulary.

Variable rt : Runtime.

(** The world a successful booking leaves behind. *)
Definition booked (w : World) (date time : string) (partySize : Z) (day : Day)
  : World :=
  {| db := {| availability := cleared (db w) date time partySize day;
              bookings := bookings (db w) ++
                [ {| booking_date := date; booking_time := time;
                     booking_partySize := partySize;
                     confirmation := confirmation_of (Math_random rt (randoms w)) |} ] |};
     chat := chat w;
     randoms := S (randoms w);
     nows := nows w |}.

(** The flag the scan reads for a time key: [day[t]?.[partySize]], coerced. *)
Definition flag_on (day : Day) (partySize : Z) (t : string) : bool :=
  truthy (match day_lookup day t with
          | Some flags => flags !! partySize
          | None => None
          end).

Definition in_range (requestedTime : option Z) (t : string) : bool :=
  within_30_minutes (Date_getTime rt t) requestedTime.

Definition has_clock (s : AvailableSlot) : Prop :=
  is_Some (Date_getTime rt (slot_time s)).

(** Ascending clock time. *)
Definition clock_le (a b : AvailableSlot) : Prop :=
  exists x y, Date_getTime rt (slot_time a) = Some x
              /\ Date_getTime rt (slot_time b) = Some y /\ x <= y.

(** The alternates the handler offers: the available candidates, in clock
    order. *)
Definition alternates (day : Day) (partySize : Z) (time : string)
  : list AvailableSlot :=
  List.filter isAvailable
    (sort_slots rt (scan_day rt day partySize (Date_getTime rt time))).

(** What the [catch] block returns for a thrown value. *)
Definition error_result (e : Error) : TurnResult :=
  {| text := if entity_not_found e then credential_message
             else "Sorry, I encountered an error: " +:+ template (error_message e);
     functionCalls := None;
     toolResponses := None |}.

(** The session after one more request. *)
Definition asked (c : Chat) (request : ChatRequest) : Chat :=
  {| chat_apiKey := chat_apiKey c;
     chat_requests := chat_requests c ++ [request] |}.

(** The world after one identifier has been generated. *)
Definition ticked (w : World) : World :=
  {| db := db w; chat := chat w; randoms := S (randoms w); nows := S (nows w) |}.

(** What the loop body does for one requested call between recording it and
    reporting its result: the registry lookup and the dispatch. *)
Definition execute_call (fc : FunctionCall) : M ToolOutput :=
  if registry_has rt (fc_name fc) then run_tool rt (fc_name fc) (fc_args fc)
  else ret (ErrorOutput ("Function " +:+ fc_name fc +:+ " not found.")).

(** The trace entries the loop body builds. *)
Definition call_message (w : World) (fc : FunctionCall) : FunctionCallMessage :=
  {| fcm_id := "fc" +:+ "-" +:+ Date_now rt (nows w) +:+ "-"
               +:+ decimal (Math_random rt (randoms w));
     fcm_sender := "tool";
     fcm_text := "Calling tool: " +:+ fc_name fc +:+ " with arguments: "
                 +:+ JSON_stringify_args rt (fc_args fc);
     functionCall := (fc_name fc, fc_args fc) |}.

Definition response_message (w : World) (fc : FunctionCall) (out : ToolOutput)
  : ToolResponseMessage :=
  {| trm_id := "tr" +:+ "-" +:+ Date_now rt (nows w) +:+ "-"
               +:+ decimal (Math_random rt (randoms w));
     trm_sender := "tool";
     trm_text := "Tool " +:+ fc_name fc
                 +:+ (if registry_has rt (fc_name fc)
                      then " responded: " else " responded with error: ")
                 +:+ JSON_stringify_result rt out;
     toolResponse := (fc_name fc, out) |}.

End Vocabulary.

(** ** Scenarios *)

Definition draw_a : Draw := {| decimal := "0.2137"; base36 := "0.4fzyo82mvyr" |}.
Definition draw_b : Draw := {| decimal := "0.8105"; base36 := "0.t6k1c9xq0hb" |}.

(** A runtime with two different draws and a silent model. *)
Definition demo : Runtime := scripted (Some "secret") [draw_a; draw_b] [].

(** A runtime whose generator returns the same number twice. *)
Definition repeating : Runtime := scripted (Some "secret") [draw_a; draw_a] [].

(** A service that has been constructed with a credential. *)
Definition ready_world : World :=
  {| db := dummyRestaurantDB;
     chat := Some {| chat_apiKey := "secret"; chat_requests := [] |};
     randoms := 0; nows := 0 |}.

Definition args_0802 : Args :=
  {| arg_restaurant_name := Some "Our Restaurant"; arg_date := "2024-08-02";
     arg_time := "19:00"; arg_partySize := 2; arg_platform := None |}.

Definition first_call : FunctionCall :=
  {| fc_id := "call-1"; fc_name := "check_restaurant_availability";
     fc_args := args_0802 |}.

Definition second_call : FunctionCall :=
  {| fc_id := "call-2"; fc_name := "book_table"; fc_args := args_0802 |}.

(** The model asks for two tools at once, then answers with text. *)
Definition two_calls : Runtime :=
  scripted (Some "secret") [draw_a; draw_b]
    [ Return {| response_text := None;
                response_functionCalls := Some [first_call; second_call] |};
      Return {| response_text := Some "A table for 2 at 19:00 is available.";
                response_functionCalls := None |} ].

Definition unknown_call : FunctionCall :=
  {| fc_id := "call-1"; fc_name := "cancel_table"; fc_args := args_0802 |}.

(** The model asks for a tool the registry does not have, then answers
    without text. *)
Definition unknown_tool : Runtime :=
  scripted (Some "secret") [draw_a; draw_b]
    [ Return {| response_text := None;
                response_functionCalls := Some [unknown_call] |};
      Return no_text ].

(** The model's first answer is an error. *)
Definition failing : Runtime :=
  scripted (Some "secret") [draw_a; draw_b]
    [ Throw {| error_message := Some "503 Service Unavailable" |} ].

(** The model's first answer is an error that mentions the missing entity
    without the status line. *)
Definition entity_only : Runtime :=
  scripted (Some "secret") [draw_a; draw_b]
    [ Throw {| error_message := Some "requested entity was not found" |} ].

(** The model's first answer is an error with the status line and the
    missing entity. *)
Definition bad_credential : Runtime :=
  scripted (Some "secret") [draw_a; draw_b]
    [ Throw {| error_message :=
                 Some "got status: 400 Bad Request. requested entity was not found" |} ].

(** The model asks for a booking, and the request that reports the result
    fails. *)
Definition booking_call : FunctionCall :=
  {| fc_id := "call-1"; fc_name := "book_table"; fc_args := args_0802 |}.

Definition failing_followup : Runtime :=
  scripted (Some "secret") [draw_a; draw_b]
    [ Return {| response_text := None;
                response_functionCalls := Some [booking_call] |};
      Throw {| error_message := Some "503 Service Unavailable" |} ].

(** ** The application shell (App.tsx) *)

Inductive Sender := user | agent | tool | system.

Record Message := mkMessage {
  message_id : string;
  sender : Sender;
  message_text : string;
  isMarkdown : option bool }.

(** The component's state: the three [useState] cells and whether
    [agentServiceRef.current] holds a service.  The session of that service
    is the [chat] of the world. *)
Record AppState := mkApp {
  messages : list Message;
  isLoading : bool;
  hasApiKey : bool;
  agentService : bool }.

(** [setMessages(prev => [...prev, ...more])] *)
Definition add_messages (more : list Message) (a : AppState) : AppState :=
  {| messages := messages a ++ more; isLoading := isLoading a;
     hasApiKey := hasApiKey a; agentService := agentService a |}.

Definition setIsLoading (b : bool) (a : AppState) : AppState :=
  {| messages := messages a; isLoading := b;
     hasApiKey := hasApiKey a; agentService := agentService a |}.

Definition setHasApiKey (b : bool) (a : AppState) : AppState :=
  {| messages := messages a; isLoading := isLoading a;
     hasApiKey := b; agentService := agentService a |}.

Definition set_agentService (a : AppState) : AppState :=
  {| messages := messages a; isLoading := isLoading a;
     hasApiKey := hasApiKey a; agentService := true |}.

(** The two [forEach] loops and the final [push] that build [newMessages]. *)
Definition trace_messages (rt : Runtime) (response : TurnResult) (agent_id : string)
  : list Message :=
  (match functionCalls response with
   | Some calls =>
       map (fun fc =>
              {| message_id := fcm_id fc; sender := tool;
                 message_text :=
                   "Tool Call: `" +:+ fst (functionCall fc) +:+ "("
                   +:+ JSON_stringify_args rt (snd (functionCall fc)) +:+ ")`";
                 isMarkdown := Some true |}) calls
   | None => []
   end)
  ++ (match toolResponses response with
      | Some responses =>
          map (fun tr =>
                 {| message_id := trm_id tr; sender := tool;
                    message_text :=
                      "Tool Response: `" +:+ fst (toolResponse tr)
                      +:+ "` returned `"
                      +:+ JSON_stringify_result rt (snd (toolResponse tr)) +:+ "`";
                    isMarkdown := Some true |}) responses
      | None => []
      end)
  ++ [ {| message_id := agent_id; sender := agent;
          message_text := text response; isMarkdown := Some true |} ].

Section App.

Variable rt : Runtime.

(** [Date.now()], rendered, and the world after the call. *)
Definition read_now (w : World) : string * World :=
  (Date_now rt (nows w),
   {| db := db w; chat := chat w; randoms := randoms w; nows := S (nows w) |}).

(** [initializeAgentService]: when the constructor throws, the reference
    keeps what it held, so the session of the world is the one from before
    the call. *)
Definition initializeAgentService (st : AppState * World) : AppState * World :=
  let (a, w) := st in
  match new_ReservationAgentService rt w with
  | (w', Return _) => (set_agentService a, w')
  | (w', Throw error) =>
      let (now, w'') := read_now (set_chat (chat w) w') in
      (add_messages
         [ {| message_id := "sys-err-" +:+ now; sender := system;
              message_text :=
                "Error initializing agent: " +:+ template (error_message error)
                +:+ ". Please check your API key or environment setup.";
              isMarkdown := None |} ] a,
       w'')
  end.

(** The [sendMessage] callback of the component. *)
Definition App_sendMessage (text : string) (st : AppState * World)
  : AppState * World :=
  let (a, w) := st in
  if negb (agentService a) then
    let (now, w1) := read_now w in
    (add_messages
       [ {| message_id := "err-" +:+ now; sender := system;
            message_text :=
              "Reservation agent not initialized. Please refresh or select API key.";
            isMarkdown := None |} ] a,
     w1)
  else
    let (now, w1) := read_now w in
    let userMessage :=
      {| message_id := "user-" +:+ now; sender := user;
         message_text := text; isMarkdown := None |} in
    let a := add_messages [userMessage] a in
    let a := setIsLoading true a in
    match sendMessage rt text w1 with
    | (w2, Return response) =>
        let (now, w3) := read_now w2 in
        let newMessages := trace_messages rt response ("agent-" +:+ now) in
        (setIsLoading false (add_messages newMessages a), w3)
    | (w2, Throw error) =>
        let (now, w3) := read_now w2 in
        if truthy_string (error_message error)
           && includes (template (error_message error))
                       "Requested entity was not found."
        then
          (setIsLoading false
             (setHasApiKey false
                (add_messages
                   [ {| message_id := "error-" +:+ now; sender := system;
                        message_text :=
                          "An API error occurred. This might be due to an invalid or unbilled API key. Please select your API key again.";
                        isMarkdown := Some false |} ] a)),
           w3)
        else
          (setIsLoading false
             (add_messages
                [ {| message_id := "error-" +:+ now; sender := system;
                     message_text :=
                       "An unexpected error occurred: "
                       +:+ template (error_message error);
                     isMarkdown := Some false |} ] a),
           w3)
    end.

End App.

Definition empty_app : AppState :=
  {| messages := []; isLoading := false; hasApiKey := true;
     agentService := false |}.

(** ** The booking log against the store *)

(** The slot a booking record is for. *)
Definition booking_key (b : Booking) : string * string * Z :=
  (booking_date b, booking_time b, booking_partySize b).

(** The log and the flags agree: no slot is logged twice, and every logged
    slot is marked not available. *)
Definition log_consistent (d : RestaurantDB) : Prop :=
  NoDup (map booking_key (bookings d))
  /\ Forall (fun b => slot_flag d (booking_date b) (booking_time b)
                                 (booking_partySize b) = Some false)
            (bookings d).

(** * Properties of the store *)

Lemma day_lookup_assign_same day time partySize v flags :
  day_lookup day time = Some flags ->
  day_lookup (day_assign day time partySize v) time
  = Some (<[partySize := v]> flags).
Proof.
  induction day as [|[k fl] rest IH]; simpl; [discriminate|].
  destruct (String.eqb k time) eqn:E; simpl; rewrite E.
  - now intros [= ->].
  - exact IH.
Qed.

Lemma day_lookup_assign_other day time partySize v t :
  t <> time ->
  day_lookup (day_assign day time partySize v) t = day_lookup day t.
Proof.
  intros Hne.
  induction day as [|[k fl] rest IH]; simpl; [reflexivity|].
  destruct (String.eqb k time) eqn:E; simpl.
  - apply String.eqb_eq in E. subst k.
    destruct (String.eqb time t) eqn:E'; [|reflexivity].
    apply String.eqb_eq in E'. congruence.
  - now rewrite IH.
Qed.

Lemma day_keys_assign day time partySize v :
  day_keys (day_assign day time partySize v) = day_keys day.
Proof.
  unfold day_keys.
  induction day as [|[k fl] rest IH]; simpl; [reflexivity|].
  destruct (String.eqb k time); simpl; [reflexivity|].
  now rewrite IH.
Qed.

Lemma slot_flag_cleared d date time partySize day bs date' time' partySize' :
  availability d !! date = Some day ->
  is_Some (day_lookup day time) ->
  slot_flag {| availability := cleared d date time partySize day; bookings := bs |}
            date' time' partySize'
  = if decide (date' = date /\ time' = time /\ partySize' = partySize)
    then Some false
    else slot_flag d date' time' partySize'.
Proof.
  intros Hday [flags Hflags].
  unfold slot_flag, cleared; simpl.
  destruct (decide (date' = date)) as [->|Hd].
  - rewrite lookup_insert_eq, Hday.
    destruct (decide (time' = time)) as [->|Ht].
    + rewrite (day_lookup_assign_same _ _ _ _ _ Hflags), Hflags.
      destruct (decide (partySize' = partySize)) as [->|Hp].
      * rewrite lookup_insert_eq. now rewrite decide_True.
      * rewrite lookup_insert_ne by congruence.
        rewrite decide_False; [reflexivity | tauto].
    + rewrite day_lookup_assign_other by assumption.
      rewrite decide_False; [reflexivity | tauto].
  - rewrite lookup_insert_ne by congruence.
    rewrite decide_False; [reflexivity | tauto].
Qed.

(** * Properties of [book_table] *)

Section BookTable.

Variable rt : Runtime.

Lemma slot_flag_true_inv d date time partySize :
  slot_flag d date time partySize = Some true ->
  exists day flags,
    availability d !! date = Some day /\ day_lookup day time = Some flags
    /\ flags !! partySize = Some true.
Proof.
  unfold slot_flag.
  destruct (availability d !! date) as [day|]; [|discriminate].
  destruct (day_lookup day time) as [flags|] eqn:E; [|discriminate].
  intros H. now exists day, flags.
Qed.

Lemma book_table_available rn date time partySize w :
  slot_flag (db w) date time partySize = Some true ->
  exists day,
    availability (db w) !! date = Some day /\ is_Some (day_lookup day time) /\
    book_table rt rn date time partySize w
    = (booked rt w date time partySize day,
       Return {| success := true;
                 confirmationNumber :=
                   Some (confirmation_of (Math_random rt (randoms w)));
                 booking_message := Some "Booking successful." |}).
Proof.
  intros H. destruct (slot_flag_true_inv _ _ _ _ H) as (day & flags & Hd & Ht & Hf).
  exists day. split; [assumption|]. split; [now exists flags|].
  unfold book_table, lookup_date, bind, gets, assign_flag, next_random,
    push_booking, modify, ret.
  rewrite Hd, Ht, Hf. cbn [negb orb defined truthy]. cbv beta.
  rewrite Hd, Ht. reflexivity.
Qed.

(** On a date that is not a key of the store but a name of
    [Object.prototype], the guard reads the member's properties. *)
Lemma book_table_inherited rn date time partySize w read :
  availability (db w) !! date = None ->
  Object_prototype rt date = Some read ->
  book_table rt rn date time partySize w
  = (w, match read time with
        | ReadString s =>
            if defined (string_index s partySize)
            then Throw (TypeError "Cannot assign to read only property of string")
            else Return slot_unavailable
        | ReadOther => Return slot_unavailable
        | ReadThrows =>
            Throw (TypeError "'caller', 'callee', and 'arguments' properties may not be accessed")
        end).
Proof.
  intros Hd Hp. unfold book_table, lookup_date, bind, gets, ret, throw.
  rewrite Hd, Hp.
  destruct (read time) as [s| |]; try reflexivity.
  now destruct (string_index s partySize).
Qed.

Lemma book_table_unavailable rn date time partySize w :
  slot_flag (db w) date time partySize <> Some true ->
  is_Some (availability (db w) !! date) \/ Object_prototype rt date = None ->
  book_table rt rn date time partySize w = (w, Return slot_unavailable).
Proof.
  intros H Hown. unfold book_table, lookup_date, bind, gets, ret. simpl.
  unfold slot_flag in H.
  destruct (availability (db w) !! date) as [day|] eqn:Hd; simpl.
  - destruct (day_lookup day time) as [flags|]; simpl; [|reflexivity].
    destruct (flags !! partySize) as [[|]|]; simpl; try reflexivity.
    congruence.
  - destruct Hown as [[day Hday]|Hp]; [discriminate|]. now rewrite Hp.
Qed.

(** Whatever [book_table] answers, it leaves the world as it was or books
    the slot it was asked for, which then was available. *)
Lemma book_table_step rn date time partySize w :
  fst (book_table rt rn date time partySize w) = w
  \/ exists day,
       slot_flag (db w) date time partySize = Some true
       /\ availability (db w) !! date = Some day
       /\ is_Some (day_lookup day time)
       /\ fst (book_table rt rn date time partySize w)
          = booked rt w date time partySize day.
Proof.
  destruct (decide (slot_flag (db w) date time partySize = Some true)) as [H|H].
  - right. destruct (book_table_available rn _ _ _ _ H) as (day & Hd & Ht & ->).
    exists day. auto.
  - left.
    destruct (availability (db w) !! date) as [day|] eqn:Hd.
    + rewrite (book_table_unavailable rn _ _ _ _ H); [reflexivity|].
      left. rewrite Hd. eauto.
    + destruct (Object_prototype rt date) as [read|] eqn:Hp.
      * now rewrite (book_table_inherited rn _ _ _ _ _ Hd Hp).
      * rewrite (book_table_unavailable rn _ _ _ _ H); [reflexivity | now right].
Qed.

End BookTable.

(** * Properties of [check_restaurant_availability] *)

Section Availability.

Variable rt : Runtime.

Lemma scan_fold day partySize requestedTime keys acc :
  fold_left (scan_step rt day partySize requestedTime) keys acc
  = acc ++ map (fun t => {| slot_time := t; isAvailable := flag_on day partySize t |})
               (List.filter (in_range rt requestedTime) keys).
Proof.
  revert acc. induction keys as [|t keys IH]; intros acc; simpl.
  - now rewrite app_nil_r.
  - rewrite IH. unfold scan_step, in_range, flag_on.
    destruct (within_30_minutes (Date_getTime rt t) requestedTime); [|reflexivity].
    simpl. destruct (truthy _); now rewrite <- app_assoc.
Qed.

Lemma scan_day_spec day partySize requestedTime :
  scan_day rt day partySize requestedTime
  = map (fun t => {| slot_time := t; isAvailable := flag_on day partySize t |})
        (List.filter (in_range rt requestedTime) (day_keys day)).
Proof. unfold scan_day. now rewrite scan_fold. Qed.

Lemma in_range_has_clock requestedTime t :
  in_range rt requestedTime t = true -> is_Some (Date_getTime rt t).
Proof.
  unfold in_range, within_30_minutes.
  destruct (Date_getTime rt t); [eauto | discriminate].
Qed.

Lemma scan_day_has_clock day partySize requestedTime :
  Forall (has_clock rt) (scan_day rt day partySize requestedTime).
Proof.
  rewrite scan_day_spec. apply List.Forall_forall. intros s Hs.
  apply in_map_iff in Hs as (t & <- & Ht).
  apply filter_In in Ht as [_ Ht].
  exact (in_range_has_clock _ _ Ht).
Qed.

Lemma insert_slot_perm x l : Permutation (insert_slot rt x l) (x :: l).
Proof.
  induction l as [|y l IH]; simpl; [reflexivity|].
  destruct (compare_slots rt x y <=? 0); [reflexivity|].
  rewrite IH. apply perm_swap.
Qed.

Lemma sort_slots_perm l : Permutation (sort_slots rt l) l.
Proof.
  induction l as [|x l IH]; simpl; [reflexivity|].
  rewrite insert_slot_perm. now rewrite IH.
Qed.

Lemma clock_le_trans a b c : clock_le rt a b -> clock_le rt b c -> clock_le rt a c.
Proof.
  intros (x & y & Hx & Hy & Hxy) (y' & z & Hy' & Hz & Hyz).
  exists x, z. repeat split; try assumption.
  rewrite Hy in Hy'. injection Hy' as <-. lia.
Qed.

Lemma insert_slot_sorted x l :
  has_clock rt x -> Forall (has_clock rt) l ->
  StronglySorted (clock_le rt) l -> StronglySorted (clock_le rt) (insert_slot rt x l).
Proof.
  intros [tx Hx] Hl Hs.
  induction Hs as [|y l Hs IH Hy]; simpl.
  - repeat constructor.
  - apply Forall_cons in Hl as [[ty Hty] Hl].
    unfold compare_slots. rewrite Hx, Hty.
    destruct (tx - ty <=? 0) eqn:E.
    + apply Z.leb_le in E.
      assert (Hxy : clock_le rt x y) by (exists tx, ty; repeat split; auto; lia).
      constructor; [constructor; assumption|].
      constructor; [assumption|].
      eapply List.Forall_impl; [|exact Hy]. intros z Hz.
      exact (clock_le_trans _ _ _ Hxy Hz).
    + apply Z.leb_gt in E.
      constructor; [apply IH; assumption|].
      eapply Permutation_Forall; [symmetry; apply insert_slot_perm|].
      constructor; [|assumption].
      exists ty, tx. repeat split; auto; lia.
Qed.

Lemma sort_slots_sorted l :
  Forall (has_clock rt) l -> StronglySorted (clock_le rt) (sort_slots rt l).
Proof.
  induction l as [|x l IH]; simpl; intros H; [constructor|].
  apply Forall_cons in H as [Hx Hl].
  apply insert_slot_sorted; [assumption| |now apply IH].
  eapply Permutation_Forall; [symmetry; apply sort_slots_perm|assumption].
Qed.

Lemma filter_strongly_sorted (f : AvailableSlot -> bool) l :
  StronglySorted (clock_le rt) l -> StronglySorted (clock_le rt) (List.filter f l).
Proof.
  induction 1 as [|x l Hs IH Hx]; simpl; [constructor|].
  destruct (f x); [|assumption].
  constructor; [assumption|].
  apply List.Forall_forall. intros y Hy. apply filter_In in Hy as [Hy _].
  rewrite List.Forall_forall in Hx. now apply Hx.
Qed.

Lemma alternates_In day partySize time s :
  In s (alternates rt day partySize time) <->
  In (slot_time s) (day_keys day)
  /\ in_range rt (Date_getTime rt time) (slot_time s) = true
  /\ flag_on day partySize (slot_time s) = true
  /\ isAvailable s = true.
Proof.
  unfold alternates. rewrite filter_In.
  assert (Hp : In s (sort_slots rt (scan_day rt day partySize (Date_getTime rt time)))
               <-> In s (scan_day rt day partySize (Date_getTime rt time))).
  { split; apply Permutation_in;
      [apply sort_slots_perm | symmetry; apply sort_slots_perm]. }
  rewrite Hp, scan_day_spec, in_map_iff. split.
  - intros [(t & <- & Ht) Hav]. simpl in *.
    apply filter_In in Ht as [Hk Hr]. auto.
  - intros (Hk & Hr & Hf & Hav). split; [|assumption].
    exists (slot_time s). split.
    + destruct s as [t a]. simpl in *. congruence.
    + apply filter_In. auto.
Qed.

Lemma alternates_sorted day partySize time :
  StronglySorted (clock_le rt) (alternates rt day partySize time).
Proof.
  apply filter_strongly_sorted, sort_slots_sorted, scan_day_has_clock.
Qed.

Lemma check_unfold rn date time partySize platform w day :
  availability (db w) !! date = Some day ->
  check_restaurant_availability rt rn date time partySize platform w
  = (w, Return
      (if flag_on day partySize time then
         {| available := true;
            availableSlots := Some [ {| slot_time := time; isAvailable := true |} ];
            availability_message := Some "Slot is available." |}
       else if (0 <? length (alternates rt day partySize time))%nat then
         {| available := false;
            availableSlots := Some (alternates rt day partySize time);
            availability_message :=
              Some "Requested slot unavailable, but other nearby slots are available." |}
       else
         {| available := false; availableSlots := None;
            availability_message :=
              Some "No suitable slots found within 30 minutes of your requested time." |})).
Proof.
  intros Hd.
  unfold check_restaurant_availability, lookup_date, requested_flag, scan,
    bind, gets, ret.
  rewrite Hd.
  fold (flag_on day partySize time). fold (alternates rt day partySize time).
  destruct (flag_on day partySize time); [reflexivity|].
  now destruct (0 <? length (alternates rt day partySize time))%nat.
Qed.

Lemma check_unseeded rn date time partySize platform w :
  availability (db w) !! date = None ->
  Object_prototype rt date = None ->
  check_restaurant_availability rt rn date time partySize platform w
  = (w, Return {| available := false; availableSlots := None;
                  availability_message :=
                    Some "No availability found for this date." |}).
Proof.
  intros Hd Hp.
  unfold check_restaurant_availability, lookup_date, bind, gets, ret.
  now rewrite Hd, Hp.
Qed.

(** On a date that is not a key of the store but a name of
    [Object.prototype], the handler reads the member's property [time]; the
    loop finds no key. *)
Lemma check_inherited rn date time partySize platform w read :
  availability (db w) !! date = None ->
  Object_prototype rt date = Some read ->
  check_restaurant_availability rt rn date time partySize platform w
  = (w, match read time with
        | ReadString s =>
            Return
              (if defined (string_index s partySize) then
                 {| available := true;
                    availableSlots :=
                      Some [ {| slot_time := time; isAvailable := true |} ];
                    availability_message := Some "Slot is available." |}
               else
                 {| available := false; availableSlots := None;
                    availability_message :=
                      Some "No suitable slots found within 30 minutes of your requested time." |})
        | ReadOther =>
            Return
              {| available := false; availableSlots := None;
                 availability_message :=
                   Some "No suitable slots found within 30 minutes of your requested time." |}
        | ReadThrows =>
            Throw (TypeError "'caller', 'callee', and 'arguments' properties may not be accessed")
        end).
Proof.
  intros Hd Hp.
  unfold check_restaurant_availability, lookup_date, requested_flag, scan,
    bind, gets, ret, throw.
  rewrite Hd, Hp.
  destruct (read time) as [s| |]; try reflexivity.
  now destruct (string_index s partySize).
Qed.

(** The handler writes nothing, whether it returns or throws. *)
Lemma check_frame rn date time partySize platform w :
  fst (check_restaurant_availability rt rn date time partySize platform w) = w.
Proof.
  destruct (availability (db w) !! date) as [day|] eqn:Hd.
  - now rewrite (check_unfold _ _ _ _ _ _ _ Hd).
  - destruct (Object_prototype rt date) as [read|] eqn:Hp.
    + now rewrite (check_inherited _ _ _ _ _ _ _ Hd Hp).
    + now rewrite (check_unseeded _ _ _ _ _ _ Hd Hp).
Qed.

End Availability.

(** * Properties of sequences of handler calls *)

Section RunsFacts.

Variable rt : Runtime.

Lemma fst_bind_ret {A B} (m : M A) (f : A -> B) w :
  fst (bind m (fun a => ret (f a)) w) = fst (m w).
Proof. unfold bind, ret. now destruct (m w) as [w' [a|e]]. Qed.

(** A handler call either leaves the world as it is or books one slot that
    was available. *)
Lemma handle_step call w :
  fst (handle rt call w) = w \/
  exists date time partySize day,
    slot_flag (db w) date time partySize = Some true
    /\ availability (db w) !! date = Some day
    /\ is_Some (day_lookup day time)
    /\ fst (handle rt call w) = booked rt w date time partySize day.
Proof.
  destruct call as [[|] a]; unfold handle, call_tool; rewrite fst_bind_ret.
  - left. apply check_frame.
  - destruct (book_table_step rt (arg_restaurant_name a) (arg_date a)
                (arg_time a) (arg_partySize a) w)
      as [E|(day & Hf & Hd & Ht & E)]; [now left|].
    right. exists (arg_date a), (arg_time a), (arg_partySize a), day. auto.
Qed.

Lemma slot_flag_booked w date time partySize day date' time' partySize' :
  availability (db w) !! date = Some day ->
  is_Some (day_lookup day time) ->
  slot_flag (db (booked rt w date time partySize day)) date' time' partySize'
  = if decide (date' = date /\ time' = time /\ partySize' = partySize)
    then Some false
    else slot_flag (db w) date' time' partySize'.
Proof. intros Hd Ht. unfold booked; simpl. now apply slot_flag_cleared. Qed.

(** The flag of a slot is kept by a call, or falls from [true] to [false]. *)
Lemma handle_flag call w date time partySize :
  slot_flag (db (fst (handle rt call w))) date time partySize
  = slot_flag (db w) date time partySize
  \/ (slot_flag (db w) date time partySize = Some true
      /\ slot_flag (db (fst (handle rt call w))) date time partySize = Some false).
Proof.
  destruct (handle_step call w) as [->|(d & t & p & day & Hf & Hd & Ht & ->)];
    [now left|].
  rewrite (slot_flag_booked _ _ _ _ _ _ _ _ Hd Ht).
  destruct (decide _) as [(-> & -> & ->)|]; [right | left]; auto.
Qed.

Lemma handle_keeps_unavailable call w date time partySize :
  slot_available (db w) date time partySize = false ->
  slot_available (db (fst (handle rt call w))) date time partySize = false.
Proof.
  unfold slot_available.
  destruct (handle_flag call w date time partySize) as [->|[H ->]]; auto.
Qed.

Lemma final_world_keeps_unavailable calls w date time partySize :
  slot_available (db w) date time partySize = false ->
  slot_available (db (final_world rt calls w)) date time partySize = false.
Proof.
  revert w. induction calls as [|call calls IH]; intros w H; simpl; [assumption|].
  now apply IH, handle_keeps_unavailable.
Qed.

Lemma handle_is_Some_flag call w date time partySize :
  is_Some (slot_flag (db (fst (handle rt call w))) date time partySize)
  <-> is_Some (slot_flag (db w) date time partySize).
Proof.
  destruct (handle_flag call w date time partySize) as [->|[H ->]];
    [reflexivity|].
  rewrite H. split; eauto.
Qed.

Lemma final_world_is_Some_flag calls w date time partySize :
  is_Some (slot_flag (db (final_world rt calls w)) date time partySize)
  <-> is_Some (slot_flag (db w) date time partySize).
Proof.
  revert w. induction calls as [|call calls IH]; intros w; simpl;
    [reflexivity|].
  rewrite IH. apply handle_is_Some_flag.
Qed.

Lemma slot_flag_is_Some_date d date time partySize :
  is_Some (slot_flag d date time partySize) -> is_Some (availability d !! date).
Proof.
  unfold slot_flag. destruct (availability d !! date); [eauto|].
  intros [x Hx]. discriminate.
Qed.

(** Consecutive states of a run are related by one handler call. *)
Lemma run_calls_adjacent calls w i s s' :
  (w :: run_calls rt calls w) !! i = Some s ->
  (w :: run_calls rt calls w) !! S i = Some s' ->
  exists call, s' = fst (handle rt call s).
Proof.
  revert w i. induction calls as [|call calls IH]; intros w i Hs Hs'.
  - destruct i; discriminate.
  - destruct i as [|i]; simpl in *.
    + injection Hs as <-. injection Hs' as <-. now exists call.
    + eapply IH; eassumption.
Qed.

Lemma falls_run calls w date time partySize :
  let flags :=
    map (fun s => slot_available (db s) date time partySize)
        (w :: run_calls rt calls w) in
  (falls flags <= 1)%nat
  /\ (slot_available (db w) date time partySize = false -> falls flags = 0%nat).
Proof.
  revert w. induction calls as [|call calls IH]; intros w.
  - simpl. destruct (slot_available _ _ _ _); split; auto.
  - destruct (IH (fst (handle rt call w))) as [IH1 IH2].
    pose proof (handle_keeps_unavailable call w date time partySize) as Hk.
    simpl in *.
    destruct (slot_available (db w) date time partySize);
      destruct (slot_available (db (fst (handle rt call w))) date time partySize);
      split; intros; auto; try discriminate;
      try (specialize (Hk eq_refl); discriminate).
    rewrite IH2; auto.
Qed.

(** The codes in the log after a run: the old ones, then one per draw. *)
Lemma final_world_codes calls w :
  (randoms w <= randoms (final_world rt calls w))%nat
  /\ map confirmation (bookings (db (final_world rt calls w)))
     = map confirmation (bookings (db w))
       ++ map (fun n => confirmation_of (Math_random rt n))
              (seq (randoms w) (randoms (final_world rt calls w) - randoms w)).
Proof.
  revert w. induction calls as [|call calls IH]; intros w; simpl.
  - rewrite Nat.sub_diag. simpl. now rewrite app_nil_r.
  - destruct (IH (fst (handle rt call w))) as [IH1 IH2].
    destruct (handle_step call w) as [E|(d & t & p & day & _ & _ & _ & E)];
      rewrite E in *; [auto|].
    simpl in IH1, IH2. split; [lia|].
    rewrite IH2, map_app, <- app_assoc. simpl. f_equal.
    replace (randoms (final_world rt calls (booked rt w d t p day)) - randoms w)%nat
      with (S (randoms (final_world rt calls (booked rt w d t p day))
               - S (randoms w)))%nat by lia.
    reflexivity.
Qed.

End RunsFacts.

(** * The claims about the handlers *)

(** C1. Booking a slot whose flag is [true] succeeds: the flag becomes
    [false], exactly one record with the requested date, time and party size
    and the returned confirmation code is appended to the log, and the result
    is [{success: true, confirmationNumber}].  Any later [book_table] call on
    the same key, whatever handler calls happen in between, returns the
    slot-unavailable result and changes nothing. *)
Theorem book_table_succeeds_once
    (rt : Runtime) (rn : option string) (date time : string) (partySize : Z)
    (w : World) :
  slot_flag (db w) date time partySize = Some true ->
  exists w1 code,
    book_table rt rn date time partySize w
    = (w1, Return {| success := true; confirmationNumber := Some code;
                     booking_message := Some "Booking successful." |})
    /\ slot_flag (db w1) date time partySize = Some false
    /\ bookings (db w1)
       = bookings (db w) ++ [ {| booking_date := date; booking_time := time;
                                 booking_partySize := partySize;
                                 confirmation := code |} ]
    /\ forall calls rn',
         let w2 := final_world rt calls w1 in
         book_table rt rn' date time partySize w2
         = (w2, Return {| success := false; confirmationNumber := None;
                          booking_message :=
                            Some "The requested slot is no longer available or never existed." |}).
Proof.
  intros H.
  destruct (book_table_available rt rn _ _ _ _ H) as (day & Hd & Ht & E).
  exists (booked rt w date time partySize day),
         (confirmation_of (Math_random rt (randoms w))).
  assert (Hf : slot_flag (db (booked rt w date time partySize day))
                 date time partySize = Some false).
  { rewrite (slot_flag_booked rt _ _ _ _ _ _ _ _ Hd Ht). now rewrite decide_True. }
  repeat split; [exact E | exact Hf | ].
  intros calls rn' w2.
  apply book_table_unavailable.
  - assert (Hu : slot_available (db w2) date time partySize = false).
    { apply final_world_keeps_unavailable. unfold slot_available. now rewrite Hf. }
    unfold slot_available in Hu. intros Hc. rewrite Hc in Hu. discriminate.
  - left. apply (slot_flag_is_Some_date _ date time partySize).
    apply final_world_is_Some_flag. rewrite Hf. eauto.
Qed.

Lemma book_table_succeeds_once_witness :
  slot_flag (db initial_world) "2024-08-01" "19:30" 4 = Some true
  /\ exists w1 code,
       book_table demo None "2024-08-01" "19:30" 4 initial_world
       = (w1, Return {| success := true; confirmationNumber := Some code;
                        booking_message := Some "Booking successful." |})
       /\ slot_flag (db w1) "2024-08-01" "19:30" 4 = Some false
       /\ bookings (db w1)
          = bookings (db initial_world)
            ++ [ {| booking_date := "2024-08-01"; booking_time := "19:30";
                    booking_partySize := 4; confirmation := code |} ]
       /\ forall calls rn',
            let w2 := final_world demo calls w1 in
            book_table demo rn' "2024-08-01" "19:30" 4 w2
            = (w2, Return {| success := false; confirmationNumber := None;
                             booking_message :=
                               Some "The requested slot is no longer available or never existed." |}).
Proof.
  split; [reflexivity|].
  apply (book_table_succeeds_once demo None "2024-08-01" "19:30" 4 initial_world).
  reflexivity.
Defined.

(** C2 does not hold of the code.  The guard of [book_table] reads
    [availability[date][time][partySize]] through the prototype chain.  For
    the date "constructor", the time "name" and a party of 0 no such slot
    exists in the store, yet [availability["constructor"]] is the function
    [Object], its [name] is the string "Object" and "Object"[0] is "O": all
    three tests of the guard pass, the slot-unavailable result is skipped,
    and the assignment that follows throws a [TypeError].  The call raises
    instead of returning a failure result; the store is left as it was. *)
Theorem book_table_throws_on_inherited_name :
  slot_flag (db initial_world) "constructor" "name" 0 = None
  /\ exists e,
       book_table demo None "constructor" "name" 0 initial_world
       = (initial_world, Throw e).
Proof. split; [reflexivity|]. eexists. vm_compute. reflexivity. Qed.

(** C3, as stated, fails.  On the seeded store, for 2024-08-01 at 19:30 and a
    party of 2 the exact slot is [false] and 19:00 is available within 30
    minutes; the handler answers with the alternates 19:00 and 20:00 only.
    The key 19:30 is a known time of that date within 30 minutes of the
    request, and it is not in the list, neither tagged [false] nor at all. *)
Lemma alternates_omit_unavailable_times :
  slot_available dummyRestaurantDB "2024-08-01" "19:30" 2 = false
  /\ slot_available dummyRestaurantDB "2024-08-01" "19:00" 2 = true
  /\ within_30_minutes (clock_ms "19:00") (clock_ms "19:30") = true
  /\ (exists day, availability dummyRestaurantDB !! "2024-08-01" = Some day
                  /\ In "19:30" (day_keys day))
  /\ within_30_minutes (clock_ms "19:30") (clock_ms "19:30") = true
  /\ exists alts,
       check_restaurant_availability demo None "2024-08-01" "19:30" 2 None
         initial_world
       = (initial_world,
          Return {| available := false; availableSlots := Some alts;
                    availability_message :=
                      Some "Requested slot unavailable, but other nearby slots are available." |})
       /\ alts = [ {| slot_time := "19:00"; isAvailable := true |};
                   {| slot_time := "20:00"; isAvailable := true |} ]
       /\ ~ In {| slot_time := "19:30"; isAvailable := false |} alts
       /\ ~ In "19:30" (map slot_time alts).
Proof.
  split; [reflexivity|]. split; [reflexivity|]. split; [reflexivity|].
  split.
  { eexists. split; [reflexivity|]. simpl. tauto. }
  split; [reflexivity|].
  exists [ {| slot_time := "19:00"; isAvailable := true |};
           {| slot_time := "20:00"; isAvailable := true |} ].
  split; [vm_compute; reflexivity|]. split; [reflexivity|].
  split; simpl; intros [H|[H|[]]]; discriminate.
Qed.

(** C3, amended.  When the date is seeded, the exact slot is not available
    and some time of that date within 30 minutes (inclusive) is available for
    the party size, the handler returns [available: false] together with a
    non-empty list that holds exactly the known times of that date within 30
    minutes whose own flag for the party size is [true], each tagged
    [isAvailable: true], in ascending clock order; candidates that are not
    available are left out. The store is not changed. *)
Theorem nearby_alternates_are_the_available_ones
    (rt : Runtime) (rn : option string) (date time : string) (partySize : Z)
    (platform : option Platform) (w : World) (day : Day) :
  availability (db w) !! date = Some day ->
  slot_available (db w) date time partySize = false ->
  (exists t, In t (day_keys day)
             /\ within_30_minutes (Date_getTime rt t) (Date_getTime rt time) = true
             /\ slot_available (db w) date t partySize = true) ->
  exists alts,
    check_restaurant_availability rt rn date time partySize platform w
    = (w, Return {| available := false; availableSlots := Some alts;
                    availability_message :=
                      Some "Requested slot unavailable, but other nearby slots are available." |})
    /\ alts <> []
    /\ (forall s, In s alts <->
          In (slot_time s) (day_keys day)
          /\ within_30_minutes (Date_getTime rt (slot_time s))
                               (Date_getTime rt time) = true
          /\ slot_available (db w) date (slot_time s) partySize = true
          /\ isAvailable s = true)
    /\ StronglySorted (clock_le rt) alts.
Proof.
  intros Hd Hexact (t & Hk & Hr & Hav).
  assert (Hflag : forall t', slot_available (db w) date t' partySize
                             = flag_on day partySize t').
  { intros t'. unfold slot_available, slot_flag, flag_on. now rewrite Hd. }
  exists (alternates rt day partySize time).
  assert (Hin : In {| slot_time := t; isAvailable := true |}
                   (alternates rt day partySize time)).
  { apply alternates_In. simpl. rewrite <- Hflag. auto. }
  split; [|split; [|split]].
  - rewrite (check_unfold rt _ _ _ _ _ _ _ Hd), <- Hflag, Hexact.
    destruct (alternates rt day partySize time); [destruct Hin | reflexivity].
  - intros E. rewrite E in Hin. destruct Hin.
  - intros s. rewrite alternates_In, Hflag. reflexivity.
  - apply alternates_sorted.
Qed.

Lemma nearby_alternates_witness :
  exists alts,
    check_restaurant_availability demo None "2024-08-01" "19:30" 2 None
      initial_world
    = (initial_world,
       Return {| available := false; availableSlots := Some alts;
                 availability_message :=
                   Some "Requested slot unavailable, but other nearby slots are available." |})
    /\ alts <> []
    /\ (forall s, In s alts <->
          In (slot_time s)
             ["18:00"; "18:30"; "19:00"; "19:30"; "20:00"; "20:30"]
          /\ within_30_minutes (clock_ms (slot_time s)) (clock_ms "19:30") = true
          /\ slot_available dummyRestaurantDB "2024-08-01" (slot_time s) 2 = true
          /\ isAvailable s = true)
    /\ StronglySorted (clock_le demo) alts.
Proof.
  refine (nearby_alternates_are_the_available_ones demo None "2024-08-01"
            "19:30" 2 None initial_world
            [ ("18:00", {[ 2 := true; 4 := true ]});
              ("18:30", {[ 2 := true; 4 := false ]});
              ("19:00", {[ 2 := true; 4 := true ]});
              ("19:30", {[ 2 := false; 4 := true ]});
              ("20:00", {[ 2 := true; 4 := true ]});
              ("20:30", {[ 2 := true; 4 := false ]}) ] _ _ _).
  - reflexivity.
  - reflexivity.
  - exists "19:00". split; [simpl; tauto|]. split; reflexivity.
Defined.

(** C10. [check_restaurant_availability] is read-only: for every input and
    every state the world after the call, with every availability flag and
    the booking log, is the world before it.  This holds whether the handler
    returns an answer or raises; it raises only when the date is not a key of
    the store but a name of [Object.prototype] whose member has a throwing
    getter under the requested time, and returns an answer otherwise. *)
Theorem check_leaves_store_unchanged
    (rt : Runtime) (rn : option string) (date time : string) (partySize : Z)
    (platform : option Platform) (w : World) :
  fst (check_restaurant_availability rt rn date time partySize platform w) = w
  /\ ((exists r,
         check_restaurant_availability rt rn date time partySize platform w
         = (w, Return r))
      \/ (availability (db w) !! date = None
          /\ exists read e,
               Object_prototype rt date = Some read
               /\ read time = ReadThrows
               /\ check_restaurant_availability rt rn date time partySize
                    platform w = (w, Throw e))).
Proof.
  split; [apply check_frame|].
  destruct (availability (db w) !! date) as [day|] eqn:Hd.
  - left. rewrite (check_unfold rt _ _ _ _ _ _ _ Hd). eauto.
  - destruct (Object_prototype rt date) as [read|] eqn:Hp.
    + rewrite (check_inherited rt _ _ _ _ _ _ _ Hd Hp).
      destruct (read time) as [s| |] eqn:Hread; [left; eauto | left; eauto |].
      right. split; [reflexivity|]. eauto.
    + left. rewrite (check_unseeded rt _ _ _ _ _ _ Hd Hp). eauto.
Qed.

(** C4. Along every sequence of handler calls, from any starting state and
    for every slot key: the flag goes from available to not available at
    most once; a slot that is not available in one state is not available in
    the next; and every step either leaves the booking log as it is or
    appends one record whose slot was [true] just before the step and is
    [false] just after it. *)
Theorem flags_fall_at_most_once
    (rt : Runtime) (calls : list (ToolFunction * Args)) (w : World) :
  let trace := w :: run_calls rt calls w in
  (forall date time partySize,
     (falls (map (fun s => slot_available (db s) date time partySize) trace)
      <= 1)%nat)
  /\ (forall (i : nat) s s' date time partySize,
        trace !! i = Some s -> trace !! S i = Some s' ->
        slot_available (db s) date time partySize = false ->
        slot_available (db s') date time partySize = false)
  /\ (forall (i : nat) s s',
        trace !! i = Some s -> trace !! S i = Some s' ->
        bookings (db s') = bookings (db s)
        \/ exists b,
             bookings (db s') = bookings (db s) ++ [b]
             /\ slot_flag (db s) (booking_date b) (booking_time b)
                  (booking_partySize b) = Some true
             /\ slot_flag (db s') (booking_date b) (booking_time b)
                  (booking_partySize b) = Some false).
Proof.
  intros trace. split; [|split].
  - intros date time partySize. apply falls_run.
  - intros i s s' date time partySize Hs Hs' Hu.
    destruct (run_calls_adjacent rt calls w i s s' Hs Hs') as [call ->].
    now apply handle_keeps_unavailable.
  - intros i s s' Hs Hs'.
    destruct (run_calls_adjacent rt calls w i s s' Hs Hs') as [call ->].
    destruct (handle_step rt call s) as [->|(d & t & p & day & Hf & Hd & Ht & ->)];
      [now left|].
    right. eexists. split; [reflexivity|]. simpl. split; [assumption|].
    rewrite (slot_flag_cleared _ _ _ _ _ _ _ _ _ Hd Ht).
    now rewrite decide_True.
Qed.

(** C5, as stated, fails: nothing in [book_table] compares a new code with
    the log.  When [Math.random()] returns the same number for two successful
    bookings, both records carry the same confirmation code. *)
Lemma equal_draws_give_equal_codes :
  let calls := [ book_call "2024-08-01" "19:30" 4;
                 book_call "2024-08-01" "18:00" 2 ] in
  let w := final_world repeating calls initial_world in
  map (fun s => length (bookings (db s))) (run_calls repeating calls initial_world)
  = [1%nat; 2%nat]
  /\ map confirmation (bookings (db w)) = ["RES-4FZYO82MV"; "RES-4FZYO82MV"]
  /\ ~ NoDup (map confirmation (bookings (db w))).
Proof.
  assert (E : map confirmation
                (bookings (db (final_world repeating
                   [ book_call "2024-08-01" "19:30" 4;
                     book_call "2024-08-01" "18:00" 2 ] initial_world)))
              = ["RES-4FZYO82MV"; "RES-4FZYO82MV"]) by (vm_compute; reflexivity).
  cbv zeta. split; [vm_compute; reflexivity|]. split; [exact E|].
  rewrite E. intros H. apply NoDup_cons in H as [H _].
  apply H. left.
Qed.

(** C5, amended.  After any sequence of handler calls, the log has gained
    exactly one record per random number drawn, and the confirmation codes in
    it are the codes that were there before followed by the codes
    [confirmation_of] makes from the numbers drawn, in drawing order.  So the
    codes in the log are pairwise distinct if, and only if, the earlier codes
    and the codes made from the numbers drawn during the run are pairwise
    distinct. *)
Theorem codes_distinct_when_draws_distinct
    (rt : Runtime) (calls : list (ToolFunction * Args)) (w : World) :
  let w' := final_world rt calls w in
  let drawn :=
    map (fun n => confirmation_of (Math_random rt n))
        (seq (randoms w) (randoms w' - randoms w)) in
  length (bookings (db w'))
  = (length (bookings (db w)) + (randoms w' - randoms w))%nat
  /\ map confirmation (bookings (db w'))
     = map confirmation (bookings (db w)) ++ drawn
  /\ (NoDup (map confirmation (bookings (db w)) ++ drawn)
      -> NoDup (map confirmation (bookings (db w'))))
  /\ (NoDup (map confirmation (bookings (db w')))
      -> NoDup (map confirmation (bookings (db w)) ++ drawn)).
Proof.
  intros w' drawn. unfold w', drawn in *.
  pose proof (proj2 (final_world_codes rt calls w)) as E.
  split.
  - apply (f_equal (@length string)) in E.
    rewrite length_app, !length_map, length_seq in E. exact E.
  - split; [exact E|]. rewrite E. split; intros H; exact H.
Qed.

Lemma codes_distinct_witness :
  let calls := [ book_call "2024-08-01" "19:30" 4;
                 check_call "2024-08-01" "19:30" 4;
                 book_call "2024-08-01" "19:30" 4;
                 book_call "2024-08-01" "18:00" 2 ] in
  map confirmation (bookings (db (final_world demo calls initial_world)))
  = [ confirmation_of (Math_random demo 0);
      confirmation_of (Math_random demo 1) ]
  /\ NoDup (map confirmation
              (bookings (db (final_world demo calls initial_world)))).
Proof.
  intros calls.
  destruct (codes_distinct_when_draws_distinct demo calls initial_world)
    as (_ & E & H & _).
  split.
  - exact E.
  - apply H. apply (bool_decide_unpack _). vm_compute. exact I.
Defined.

(** * Properties of [sendMessage] *)

Section Turn.

Variable rt : Runtime.

Lemma on_error_spec e w : on_error e w = (w, Return (error_result e)).
Proof. unfold on_error, error_result. now destruct (entity_not_found e). Qed.

Lemma bind_return {A B} (m : M A) (k : A -> M B) w w' a :
  m w = (w', Return a) -> bind m k w = k a w'.
Proof. intros H. unfold bind. now rewrite H. Qed.

Lemma bind_throw {A B} (m : M A) (k : A -> M B) w w' e :
  m w = (w', Throw e) -> bind m k w = (w', Throw e).
Proof. intros H. unfold bind. now rewrite H. Qed.

Lemma fresh_id_spec prefix w :
  fresh_id rt prefix w
  = (ticked w,
     Return (prefix +:+ "-" +:+ Date_now rt (nows w) +:+ "-"
             +:+ decimal (Math_random rt (randoms w)))).
Proof. reflexivity. Qed.

Lemma chat_sendMessage_spec request w c :
  chat w = Some c ->
  chat_sendMessage rt request w
  = (set_chat (Some (asked c request)) w, chat_reply rt (asked c request)).
Proof. intros H. unfold chat_sendMessage. now rewrite H. Qed.

Lemma handle_frame call w :
  chat (fst (handle rt call w)) = chat w
  /\ nows (fst (handle rt call w)) = nows w.
Proof.
  destruct (handle_step rt call w) as [->|(d & t & p & day & _ & _ & _ & ->)];
    auto.
Qed.

Lemma toolFunctions_lookup name :
  toolFunctions !! name
  = if String.eqb name "check_restaurant_availability"
    then Some check_restaurant_availability_fn
    else if String.eqb name "book_table" then Some book_table_fn
    else None.
Proof.
  unfold toolFunctions.
  destruct (String.eqb name "check_restaurant_availability") eqn:E1.
  - apply String.eqb_eq in E1. subst name. apply lookup_insert_eq.
  - apply String.eqb_neq in E1. rewrite lookup_insert_ne by congruence.
    destruct (String.eqb name "book_table") eqn:E2.
    + apply String.eqb_eq in E2. subst name. apply lookup_singleton_eq.
    + apply String.eqb_neq in E2. apply lookup_singleton_ne. congruence.
Qed.

(** The dispatch chain, arm by arm. *)
Lemma run_tool_cases functionName a :
  (functionName = "check_restaurant_availability"
   /\ run_tool rt functionName a
      = handle rt (check_restaurant_availability_fn, a))
  \/ (functionName = "book_table"
      /\ run_tool rt functionName a
         = handle rt (book_table_fn,
                      {| arg_restaurant_name := arg_restaurant_name a;
                         arg_date := arg_date a; arg_time := arg_time a;
                         arg_partySize := arg_partySize a;
                         arg_platform := None |}))
  \/ (functionName <> "check_restaurant_availability"
      /\ functionName <> "book_table"
      /\ run_tool rt functionName a
         = ret (ErrorOutput ("Function " +:+ functionName +:+ " not handled."))).
Proof.
  unfold run_tool, call_registered. rewrite toolFunctions_lookup.
  destruct (String.eqb functionName "check_restaurant_availability") eqn:E1.
  - left. apply String.eqb_eq in E1. auto.
  - destruct (String.eqb functionName "book_table") eqn:E2.
    + right; left. apply String.eqb_eq in E2. auto.
    + right; right. apply String.eqb_neq in E1, E2. auto.
Qed.

(** Executing a call leaves the world as it was or books one slot; the
    session and the clock reads are not touched. *)
Lemma execute_call_step fc w :
  fst (execute_call rt fc w) = w
  \/ exists date time partySize day,
       fc_name fc = "book_table"
       /\ slot_flag (db w) date time partySize = Some true
       /\ availability (db w) !! date = Some day
       /\ is_Some (day_lookup day time)
       /\ fst (execute_call rt fc w) = booked rt w date time partySize day.
Proof.
  unfold execute_call.
  destruct (registry_has rt (fc_name fc)); [|now left].
  destruct (run_tool_cases (fc_name fc) (fc_args fc))
    as [[_ ->]|[[Hname ->]|(_ & _ & ->)]].
  - left. unfold handle, call_tool. rewrite fst_bind_ret. apply check_frame.
  - destruct (handle_step rt
                (book_table_fn,
                 {| arg_restaurant_name := arg_restaurant_name (fc_args fc);
                    arg_date := arg_date (fc_args fc);
                    arg_time := arg_time (fc_args fc);
                    arg_partySize := arg_partySize (fc_args fc);
                    arg_platform := None |}) w)
      as [E|(d & t & p & day & Hf & Hd & Ht & E)]; [now left|].
    right. exists d, t, p, day. auto.
  - now left.
Qed.

Lemma execute_call_frame fc w :
  chat (fst (execute_call rt fc w)) = chat w
  /\ nows (fst (execute_call rt fc w)) = nows w.
Proof.
  destruct (execute_call_step fc w)
    as [->|(d & t & p & day & _ & _ & _ & _ & ->)]; auto.
Qed.

(** One pass through the loop body: the call is recorded, executed, its result
    recorded and sent to the model, and the body returns from [sendMessage]. *)
Lemma loop_body_spec fc fcs trs w c w2 out :
  chat w = Some c ->
  execute_call rt fc (ticked w) = (w2, Return out) ->
  let request := FunctionResponse (fc_id fc) (fc_name fc) out in
  loop_body rt fc fcs trs w
  = (set_chat (Some (asked c request)) (ticked w2),
     match chat_reply rt (asked c request) with
     | Return followup =>
         Return (ReturnFromLoop
                   {| text := or_empty (response_text followup);
                      functionCalls := Some (fcs ++ [call_message rt w fc]);
                      toolResponses := Some (trs ++ [response_message rt w2 fc out]) |})
     | Throw e => Throw e
     end).
Proof.
  intros Hc Hexec request.
  assert (Hchat : chat w2 = Some c).
  { pose proof (proj1 (execute_call_frame fc (ticked w))) as H.
    rewrite Hexec in H. simpl in H. now rewrite H. }
  unfold loop_body.
  rewrite (bind_return _ _ _ _ _ (fresh_id_spec "fc" w)).
  unfold execute_call in Hexec. unfold response_message.
  destruct (registry_has rt (fc_name fc)).
  - rewrite (bind_return _ _ _ _ _ Hexec).
    rewrite (bind_return _ _ _ _ _ (fresh_id_spec "tr" w2)).
    unfold bind.
    rewrite (chat_sendMessage_spec _ (ticked w2) c) by exact Hchat.
    fold request.
    now destruct (chat_reply rt (asked c request)).
  - injection Hexec as <- <-.
    rewrite (bind_return _ _ _ _ _ (fresh_id_spec "tr" (ticked w))).
    unfold bind.
    rewrite (chat_sendMessage_spec _ (ticked (ticked w)) c) by exact Hchat.
    fold request.
    now destruct (chat_reply rt (asked c request)).
Qed.

(** When the handler throws, the loop body throws: nothing is sent. *)
Lemma loop_body_throws fc fcs trs w w2 e :
  execute_call rt fc (ticked w) = (w2, Throw e) ->
  loop_body rt fc fcs trs w = (w2, Throw e).
Proof.
  intros Hexec. unfold loop_body.
  rewrite (bind_return _ _ _ _ _ (fresh_id_spec "fc" w)).
  unfold execute_call in Hexec.
  destruct (registry_has rt (fc_name fc)); [|discriminate].
  now rewrite (bind_throw _ _ _ _ _ Hexec).
Qed.

(** Enter the [try] block of [sendMessage] when the session [c] exists. *)
Ltac enter_turn w c Hc :=
  unfold sendMessage;
  rewrite (bind_return _ _ w w (Some c)) by (unfold gets; now rewrite Hc);
  cbn [defined negb];
  rewrite (bind_return _ _ w w tt) by reflexivity;
  unfold try_catch.

(** The three ways a turn can go, once the service holds a session. *)
Lemma sendMessage_first_fails userMessage w c e :
  chat w = Some c ->
  chat_reply rt (asked c (UserMessage userMessage)) = Throw e ->
  sendMessage rt userMessage w
  = (set_chat (Some (asked c (UserMessage userMessage))) w,
     Return (error_result e)).
Proof.
  intros Hc He. enter_turn w c Hc.
  rewrite (bind_throw _ _ w _ e)
    by (rewrite (chat_sendMessage_spec _ _ _ Hc); now rewrite He).
  apply on_error_spec.
Qed.

Lemma sendMessage_no_calls userMessage w c resp :
  chat w = Some c ->
  chat_reply rt (asked c (UserMessage userMessage)) = Return resp ->
  response_functionCalls resp = None \/ response_functionCalls resp = Some [] ->
  sendMessage rt userMessage w
  = (set_chat (Some (asked c (UserMessage userMessage))) w,
     Return {| text := or_empty (response_text resp);
               functionCalls := Some []; toolResponses := Some [] |}).
Proof.
  intros Hc Hr Hcalls. enter_turn w c Hc.
  rewrite (bind_return _ _ w _ resp)
    by (rewrite (chat_sendMessage_spec _ _ _ Hc); now rewrite Hr).
  destruct Hcalls as [-> | ->]; reflexivity.
Qed.

Lemma sendMessage_with_calls userMessage w c resp fc rest w2 out :
  chat w = Some c ->
  let c1 := asked c (UserMessage userMessage) in
  chat_reply rt c1 = Return resp ->
  response_functionCalls resp = Some (fc :: rest) ->
  execute_call rt fc (ticked (set_chat (Some c1) w)) = (w2, Return out) ->
  let c2 := asked c1 (FunctionResponse (fc_id fc) (fc_name fc) out) in
  sendMessage rt userMessage w
  = (set_chat (Some c2) (ticked w2),
     Return
       match chat_reply rt c2 with
       | Return followup =>
           {| text := or_empty (response_text followup);
              functionCalls := Some [call_message rt (set_chat (Some c1) w) fc];
              toolResponses := Some [response_message rt w2 fc out] |}
       | Throw e => error_result e
       end).
Proof.
  intros Hc c1 Hr Hcalls Hexec c2. subst c1 c2. enter_turn w c Hc.
  rewrite (bind_return _ _ w _ resp)
    by (rewrite (chat_sendMessage_spec _ _ _ Hc); now rewrite Hr).
  rewrite Hcalls. cbn [for_of].
  assert (Hbody := loop_body_spec fc [] []
                     (set_chat (Some (asked c (UserMessage userMessage))) w)
                     _ w2 out eq_refl Hexec).
  cbv zeta in Hbody.
  set (c2 := asked (asked c (UserMessage userMessage))
               (FunctionResponse (fc_id fc) (fc_name fc) out)) in *.
  destruct (chat_reply rt c2) as [followup|e].
  - now rewrite (bind_return _ _ _ _ _ Hbody).
  - rewrite (bind_throw _ _ _ _ _ Hbody). apply on_error_spec.
Qed.

Lemma sendMessage_call_throws userMessage w c resp fc rest w2 e :
  chat w = Some c ->
  let c1 := asked c (UserMessage userMessage) in
  chat_reply rt c1 = Return resp ->
  response_functionCalls resp = Some (fc :: rest) ->
  execute_call rt fc (ticked (set_chat (Some c1) w)) = (w2, Throw e) ->
  sendMessage rt userMessage w = (w2, Return (error_result e)).
Proof.
  intros Hc c1 Hr Hcalls Hexec. subst c1. enter_turn w c Hc.
  rewrite (bind_return _ _ w _ resp)
    by (rewrite (chat_sendMessage_spec _ _ _ Hc); now rewrite Hr).
  rewrite Hcalls. cbn [for_of].
  rewrite (bind_throw _ _ _ _ _ (loop_body_throws fc [] [] _ _ _ Hexec)).
  apply on_error_spec.
Qed.

(** The text of the [catch] block, by the tests it makes on the message. *)
Lemma error_result_text e :
  text (error_result e)
  = match error_message e with
    | Some m =>
        if includes m "400 Bad Request"
           && includes m "requested entity was not found"
        then "I encountered an issue processing your request. Please try again or re-select your API key if prompted."
        else "Sorry, I encountered an error: " +:+ m
    | None => "Sorry, I encountered an error: undefined"
    end.
Proof.
  unfold error_result, entity_not_found. simpl.
  destruct (error_message e) as [m|]; [|reflexivity].
  destruct (String.eqb m "") eqn:E; [|reflexivity].
  apply String.eqb_eq in E. subst m. reflexivity.
Qed.

(** Every turn on a service with a session goes one of four ways. *)
Lemma sendMessage_cases userMessage w c :
  chat w = Some c ->
  let c1 := asked c (UserMessage userMessage) in
  let w1 := set_chat (Some c1) w in
  (exists e, chat_reply rt c1 = Throw e
             /\ sendMessage rt userMessage w = (w1, Return (error_result e)))
  \/ (exists resp,
        chat_reply rt c1 = Return resp
        /\ (response_functionCalls resp = None
            \/ response_functionCalls resp = Some [])
        /\ sendMessage rt userMessage w
           = (w1, Return {| text := or_empty (response_text resp);
                            functionCalls := Some [];
                            toolResponses := Some [] |}))
  \/ (exists resp fc rest w2 out,
        chat_reply rt c1 = Return resp
        /\ response_functionCalls resp = Some (fc :: rest)
        /\ execute_call rt fc (ticked w1) = (w2, Return out)
        /\ let c2 := asked c1 (FunctionResponse (fc_id fc) (fc_name fc) out) in
           sendMessage rt userMessage w
           = (set_chat (Some c2) (ticked w2),
              Return
                match chat_reply rt c2 with
                | Return followup =>
                    {| text := or_empty (response_text followup);
                       functionCalls := Some [call_message rt w1 fc];
                       toolResponses := Some [response_message rt w2 fc out] |}
                | Throw e => error_result e
                end))
  \/ (exists resp fc rest w2 e,
        chat_reply rt c1 = Return resp
        /\ response_functionCalls resp = Some (fc :: rest)
        /\ execute_call rt fc (ticked w1) = (w2, Throw e)
        /\ sendMessage rt userMessage w = (w2, Return (error_result e))).
Proof.
  intros Hc c1 w1.
  destruct (chat_reply rt c1) as [resp|e] eqn:Hr.
  - destruct (response_functionCalls resp) as [[|fc rest]|] eqn:Hcalls.
    + right; left. exists resp. split; [reflexivity|]. split; [now right|].
      apply (sendMessage_no_calls userMessage w c resp Hc Hr). now right.
    + destruct (execute_call rt fc (ticked w1)) as [w2 [out|e]] eqn:Hexec.
      * right; right; left. exists resp, fc, rest, w2, out.
        repeat split; try assumption.
        exact (sendMessage_with_calls userMessage w c resp fc rest w2 out
                 Hc Hr Hcalls Hexec).
      * right; right; right. exists resp, fc, rest, w2, e.
        repeat split; try assumption.
        exact (sendMessage_call_throws userMessage w c resp fc rest w2 e
                 Hc Hr Hcalls Hexec).
    + right; left. exists resp. split; [reflexivity|]. split; [now left|].
      apply (sendMessage_no_calls userMessage w c resp Hc Hr). now left.
  - left. exists e. split; [reflexivity|].
    exact (sendMessage_first_fails userMessage w c e Hc Hr).
Qed.

End Turn.

(** * The claims about the turn *)

(** C6, as stated, fails.  Both branches of the loop body return from
    [sendMessage], so the loop never reaches a second call: when the model
    asks for two tools, the trace holds the first call only and the second
    one is not recorded as called. *)
Lemma later_calls_are_not_recorded :
  chat_reply two_calls
    (asked {| chat_apiKey := "secret"; chat_requests := [] |}
           (UserMessage "A table for 2 on 2024-08-02 at 19:00"))
  = Return {| response_text := None;
              response_functionCalls := Some [first_call; second_call] |}
  /\ exists w' r trace,
       sendMessage two_calls "A table for 2 on 2024-08-02 at 19:00" ready_world
       = (w', Return r)
       /\ functionCalls r = Some trace
       /\ map functionCall trace = [ (fc_name first_call, fc_args first_call) ]
       /\ ~ In (fc_name second_call, fc_args second_call)
               (map functionCall trace).
Proof.
  split; [reflexivity|].
  eexists _, _, _. split; [vm_compute; reflexivity|].
  split; [reflexivity|]. split; [reflexivity|].
  simpl. intros [H|[]]. discriminate.
Qed.

(** C6, amended.  When the model's response carries one or more tool-call
    requests, only the first one is looked at.  That call is recorded and
    executed.  If its handler returns, the result is sent back to the model
    under the call's id and name; if that request returns too, the round trip
    is complete: the follow-up text is the turn's text and the returned trace
    holds exactly one [functionCalls] entry and one [toolResponses] entry,
    both for the first call.  If the handler throws, or if the request that
    reports its result fails, the turn returns the [catch] block's message
    without any trace.  In every case the remaining calls of the batch are
    neither recorded, nor executed, nor followed up: nothing below depends on
    them, and the session receives the user's message and at most that one
    tool result. *)
Theorem only_first_call_is_processed
    (rt : Runtime) (userMessage : string) (w : World) (c : Chat)
    (resp : GenerateContentResponse) (fc : FunctionCall)
    (rest : list FunctionCall) :
  chat w = Some c ->
  let c1 := asked c (UserMessage userMessage) in
  chat_reply rt c1 = Return resp ->
  response_functionCalls resp = Some (fc :: rest) ->
  exists w2 outcome,
    execute_call rt fc (ticked (set_chat (Some c1) w)) = (w2, outcome)
    /\ match outcome with
       | Return out =>
           let c2 := asked c1 (FunctionResponse (fc_id fc) (fc_name fc) out) in
           exists r,
             sendMessage rt userMessage w
             = (set_chat (Some c2) (ticked w2), Return r)
             /\ chat_requests c2
                = chat_requests c
                  ++ [ UserMessage userMessage;
                       FunctionResponse (fc_id fc) (fc_name fc) out ]
             /\ (forall followup, chat_reply rt c2 = Return followup ->
                   text r = or_empty (response_text followup)
                   /\ exists fcm trm,
                        functionCalls r = Some [fcm]
                        /\ functionCall fcm = (fc_name fc, fc_args fc)
                        /\ toolResponses r = Some [trm]
                        /\ toolResponse trm = (fc_name fc, out))
             /\ (forall e, chat_reply rt c2 = Throw e -> r = error_result e)
       | Throw e =>
           sendMessage rt userMessage w = (w2, Return (error_result e))
           /\ chat w2 = Some c1
       end.
Proof.
  intros Hc c1 Hr Hcalls.
  destruct (execute_call rt fc (ticked (set_chat (Some c1) w)))
    as [w2 [out|e]] eqn:Hexec; exists w2; eexists; (split; [reflexivity|]);
    cbv beta iota.
  - intros c2. eexists. split.
    { exact (sendMessage_with_calls rt userMessage w c resp fc rest w2 out
               Hc Hr Hcalls Hexec). }
    split.
    { unfold c2, c1, asked. simpl. now rewrite <- app_assoc. }
    fold c1. fold c2. split.
    + intros followup ->. split; [reflexivity|].
      eexists _, _. repeat split.
    + now intros e' ->.
  - split.
    + exact (sendMessage_call_throws rt userMessage w c resp fc rest w2 e
               Hc Hr Hcalls Hexec).
    + pose proof (proj1 (execute_call_frame rt fc
                           (ticked (set_chat (Some c1) w)))) as H.
      rewrite Hexec in H. exact H.
Qed.

Lemma only_first_call_witness :
  exists w2 outcome,
    execute_call two_calls first_call
      (ticked (set_chat
                 (Some (asked {| chat_apiKey := "secret"; chat_requests := [] |}
                              (UserMessage "A table for 2")))
                 ready_world))
    = (w2, outcome)
    /\ match outcome with
       | Return out =>
           let c2 := asked (asked {| chat_apiKey := "secret"; chat_requests := [] |}
                                  (UserMessage "A table for 2"))
                           (FunctionResponse (fc_id first_call)
                              (fc_name first_call) out) in
           exists r,
             sendMessage two_calls "A table for 2" ready_world
             = (set_chat (Some c2) (ticked w2), Return r)
             /\ chat_requests c2
                = [] ++ [ UserMessage "A table for 2";
                          FunctionResponse (fc_id first_call)
                            (fc_name first_call) out ]
             /\ (forall followup, chat_reply two_calls c2 = Return followup ->
                   text r = or_empty (response_text followup)
                   /\ exists fcm trm,
                        functionCalls r = Some [fcm]
                        /\ functionCall fcm
                           = (fc_name first_call, fc_args first_call)
                        /\ toolResponses r = Some [trm]
                        /\ toolResponse trm = (fc_name first_call, out))
             /\ (forall e, chat_reply two_calls c2 = Throw e ->
                   r = error_result e)
       | Throw e =>
           sendMessage two_calls "A table for 2" ready_world
           = (w2, Return (error_result e))
           /\ chat w2
              = Some (asked {| chat_apiKey := "secret"; chat_requests := [] |}
                            (UserMessage "A table for 2"))
       end.
Proof.
  apply (only_first_call_is_processed two_calls "A table for 2" ready_world
           {| chat_apiKey := "secret"; chat_requests := [] |}
           {| response_text := None;
              response_functionCalls := Some [first_call; second_call] |}
           first_call [second_call]); reflexivity.
Defined.

(** C7, as stated, fails in its last part.  The turn's text is the model's
    follow-up text, [toolErrorResponse.text || ''], and the model may answer
    the error payload without text: the turn then completes with an empty
    [text], although the error payload was recorded and sent back. *)
Lemma unknown_tool_turn_may_end_with_empty_text :
  registry_has unknown_tool (fc_name unknown_call) = false
  /\ exists w' r trm,
       sendMessage unknown_tool "Cancel my table" ready_world = (w', Return r)
       /\ toolResponses r = Some [trm]
       /\ toolResponse trm
          = ("cancel_table", ErrorOutput "Function cancel_table not found.")
       /\ text r = "".
Proof.
  split; [reflexivity|].
  eexists _, _, _. split; [vm_compute; reflexivity|].
  repeat split.
Qed.

(** C7, amended.  When the first tool call of the model's response names a
    tool for which the registry lookup [this.toolFunctions[name]] finds
    nothing, neither one of the two tools nor a name that plain objects
    inherit, [sendMessage] does not raise.  It leaves the store alone,
    records one tool result whose payload is [{error: "Function <name> not
    found."}], and sends that payload to the model under the id and name of
    the originating call.  The turn's text is then the model's follow-up
    text, which is empty when the model returns none; if the follow-up
    request itself fails, the turn returns the error message of the [catch]
    block instead. *)
Theorem unknown_tool_is_reported
    (rt : Runtime) (userMessage : string) (w : World) (c : Chat)
    (resp : GenerateContentResponse) (fc : FunctionCall)
    (rest : list FunctionCall) :
  chat w = Some c ->
  chat_reply rt (asked c (UserMessage userMessage)) = Return resp ->
  response_functionCalls resp = Some (fc :: rest) ->
  toolFunctions !! fc_name fc = None ->
  Object_prototype rt (fc_name fc) = None ->
  let errorResult := ErrorOutput ("Function " +:+ fc_name fc +:+ " not found.") in
  let c2 := asked (asked c (UserMessage userMessage))
                  (FunctionResponse (fc_id fc) (fc_name fc) errorResult) in
  exists w' r,
    sendMessage rt userMessage w = (w', Return r)
    /\ db w' = db w
    /\ chat w' = Some c2
    /\ (forall followup, chat_reply rt c2 = Return followup ->
          text r = or_empty (response_text followup)
          /\ exists trm,
               toolResponses r = Some [trm]
               /\ toolResponse trm = (fc_name fc, errorResult))
    /\ (forall e, chat_reply rt c2 = Throw e -> r = error_result e).
Proof.
  intros Hc Hr Hcalls Hown Hinherited errorResult c2.
  assert (Hexec :
    execute_call rt fc
      (ticked (set_chat (Some (asked c (UserMessage userMessage))) w))
    = (ticked (set_chat (Some (asked c (UserMessage userMessage))) w),
       Return errorResult)).
  { unfold execute_call, registry_has. now rewrite Hown, Hinherited. }
  eexists _, _. split.
  { exact (sendMessage_with_calls rt userMessage w c resp fc rest _ _
             Hc Hr Hcalls Hexec). }
  fold c2. split; [reflexivity|]. split; [reflexivity|]. split.
  - intros followup ->. split; [reflexivity|]. eexists. split; reflexivity.
  - now intros e ->.
Qed.

Lemma unknown_tool_witness :
  let errorResult := ErrorOutput "Function cancel_table not found." in
  let c2 := asked (asked {| chat_apiKey := "secret"; chat_requests := [] |}
                         (UserMessage "Cancel my table"))
                  (FunctionResponse "call-1" "cancel_table" errorResult) in
  exists w' r,
    sendMessage unknown_tool "Cancel my table" ready_world = (w', Return r)
    /\ db w' = db ready_world
    /\ chat w' = Some c2
    /\ (forall followup, chat_reply unknown_tool c2 = Return followup ->
          text r = or_empty (response_text followup)
          /\ exists trm,
               toolResponses r = Some [trm]
               /\ toolResponse trm = ("cancel_table", errorResult))
    /\ (forall e, chat_reply unknown_tool c2 = Throw e -> r = error_result e).
Proof.
  apply (unknown_tool_is_reported unknown_tool "Cancel my table" ready_world
           {| chat_apiKey := "secret"; chat_requests := [] |}
           {| response_text := None;
              response_functionCalls := Some [unknown_call] |}
           unknown_call []); reflexivity.
Defined.

(** C8, as stated, fails in its classification.  The [catch] block gives the
    credential re-selection message only when the error's message contains
    "400 Bad Request" as well as "requested entity was not found".  An error
    of the "requested entity was not found" kind whose message lacks the
    status line gets the plain message like any other error. *)
Lemma entity_not_found_alone_is_not_classified :
  chat_reply entity_only
    (asked {| chat_apiKey := "secret"; chat_requests := [] |}
           (UserMessage "A table for 2"))
  = Throw {| error_message := Some "requested entity was not found" |}
  /\ includes "requested entity was not found"
              "requested entity was not found" = true
  /\ sendMessage entity_only "A table for 2" ready_world
     = (set_chat (Some (asked {| chat_apiKey := "secret"; chat_requests := [] |}
                              (UserMessage "A table for 2")))
                 ready_world,
        Return {| text := "Sorry, I encountered an error: requested entity was not found";
                  functionCalls := None; toolResponses := None |}).
Proof.
  split; [reflexivity|]. split; [reflexivity|]. vm_compute. reflexivity.
Qed.

(** C8, amended.  Once the service holds a session, [sendMessage] never
    raises.  When a request to the model fails, be it the user's message or
    the tool result that follows it, no further request is sent and the turn
    returns, without traces, a text chosen by the error's message: the
    credential re-selection message when the message contains both "400 Bad
    Request" and, in this very spelling, "requested entity was not found";
    "Sorry, I encountered an error: <message>" for every other error.  That
    text is never empty, so the turn always yields a final text. *)
Theorem model_failure_is_reported
    (rt : Runtime) (userMessage : string) (w : World) (c : Chat) :
  chat w = Some c ->
  let c1 := asked c (UserMessage userMessage) in
  let report (e : Error) : TurnResult :=
    {| text :=
         match error_message e with
         | Some m =>
             if includes m "400 Bad Request"
                && includes m "requested entity was not found"
             then "I encountered an issue processing your request. Please try again or re-select your API key if prompted."
             else "Sorry, I encountered an error: " +:+ m
         | None => "Sorry, I encountered an error: undefined"
         end;
       functionCalls := None;
       toolResponses := None |} in
  (exists w' r, sendMessage rt userMessage w = (w', Return r))
  /\ (forall e, chat_reply rt c1 = Throw e ->
        sendMessage rt userMessage w = (set_chat (Some c1) w, Return (report e)))
  /\ (forall resp fc rest w2 out e,
        chat_reply rt c1 = Return resp ->
        response_functionCalls resp = Some (fc :: rest) ->
        execute_call rt fc (ticked (set_chat (Some c1) w)) = (w2, Return out) ->
        let c2 := asked c1 (FunctionResponse (fc_id fc) (fc_name fc) out) in
        chat_reply rt c2 = Throw e ->
        sendMessage rt userMessage w
        = (set_chat (Some c2) (ticked w2), Return (report e)))
  /\ (forall e, text (report e) <> "").
Proof.
  intros Hc c1 report.
  assert (Hreport : forall e, error_result e = report e).
  { intros e. unfold report. rewrite <- error_result_text. reflexivity. }
  split; [|split; [|split]].
  - destruct (chat_reply rt c1) as [resp|e] eqn:Hr.
    + destruct (response_functionCalls resp) as [[|fc rest]|] eqn:Hcalls.
      * eexists _, _.
        apply (sendMessage_no_calls rt userMessage w c resp Hc Hr). now right.
      * destruct (execute_call rt fc (ticked (set_chat (Some c1) w)))
          as [w2 [out|e]] eqn:Hexec; eexists _, _.
        -- exact (sendMessage_with_calls rt userMessage w c resp fc rest w2 out
                    Hc Hr Hcalls Hexec).
        -- exact (sendMessage_call_throws rt userMessage w c resp fc rest w2 e
                    Hc Hr Hcalls Hexec).
      * eexists _, _.
        apply (sendMessage_no_calls rt userMessage w c resp Hc Hr). now left.
    + eexists _, _. exact (sendMessage_first_fails rt userMessage w c e Hc Hr).
  - intros e He. rewrite <- Hreport.
    exact (sendMessage_first_fails rt userMessage w c e Hc He).
  - intros resp fc rest w2 out e Hr Hcalls Hexec c2 He.
    rewrite (sendMessage_with_calls rt userMessage w c resp fc rest w2 out
               Hc Hr Hcalls Hexec).
    fold c1. fold c2. now rewrite He, Hreport.
  - intros e. unfold report. simpl.
    destruct (error_message e) as [m|]; [|discriminate].
    destruct (includes m "400 Bad Request"
              && includes m "requested entity was not found");
      discriminate.
Qed.

Lemma model_failure_witness :
  sendMessage bad_credential "A table for 2" ready_world
  = (set_chat (Some (asked {| chat_apiKey := "secret"; chat_requests := [] |}
                           (UserMessage "A table for 2")))
              ready_world,
     Return {| text := "I encountered an issue processing your request. Please try again or re-select your API key if prompted.";
               functionCalls := None; toolResponses := None |})
  /\ sendMessage failing "A table for 2" ready_world
     = (set_chat (Some (asked {| chat_apiKey := "secret"; chat_requests := [] |}
                              (UserMessage "A table for 2")))
                 ready_world,
        Return {| text := "Sorry, I encountered an error: 503 Service Unavailable";
                  functionCalls := None; toolResponses := None |}).
Proof.
  split.
  - refine (proj1 (proj2 (model_failure_is_reported bad_credential
                            "A table for 2" ready_world
                            {| chat_apiKey := "secret"; chat_requests := [] |}
                            _))
                  {| error_message :=
                       Some "got status: 400 Bad Request. requested entity was not found" |}
                  _);
      reflexivity.
  - refine (proj1 (proj2 (model_failure_is_reported failing "A table for 2"
                            ready_world
                            {| chat_apiKey := "secret"; chat_requests := [] |}
                            _))
                  {| error_message := Some "503 Service Unavailable" |} _);
      reflexivity.
Defined.

(** C9. Constructing the service reads the credential at once.  When
    [API_KEY] is absent from the environment (undefined, or the empty string,
    which the guard [!apiKey] treats alike), the constructor throws "API_KEY
    is not defined in environment variables." and no session exists; when it
    holds a key, construction succeeds and the service holds a fresh session
    created with that key. *)
Theorem construction_needs_the_credential (rt : Runtime) (w : World) :
  (process_env_API_KEY rt = None \/ process_env_API_KEY rt = Some "" ->
   new_ReservationAgentService rt w
   = (set_chat None w,
      Throw {| error_message :=
                 Some "API_KEY is not defined in environment variables." |}))
  /\ (forall key, process_env_API_KEY rt = Some key -> key <> "" ->
      new_ReservationAgentService rt w
      = (set_chat (Some {| chat_apiKey := key; chat_requests := [] |}) w,
         Return tt)).
Proof.
  unfold new_ReservationAgentService, initChat, getApiKey, bind, modify, throw, ret.
  split.
  - intros [H|H]; rewrite H; reflexivity.
  - intros key H Hne. rewrite H. simpl.
    destruct (String.eqb key "") eqn:E; [|reflexivity].
    apply String.eqb_eq in E. contradiction.
Qed.

Lemma construction_witness :
  new_ReservationAgentService (scripted None [] []) initial_world
  = (set_chat None initial_world,
     Throw {| error_message :=
                Some "API_KEY is not defined in environment variables." |})
  /\ new_ReservationAgentService demo initial_world
     = (set_chat (Some {| chat_apiKey := "secret"; chat_requests := [] |})
                 initial_world,
        Return tt).
Proof.
  split.
  - apply (proj1 (construction_needs_the_credential (scripted None [] [])
                    initial_world)).
    left; reflexivity.
  - apply (proj2 (construction_needs_the_credential demo initial_world) "secret").
    + reflexivity.
    + discriminate.
Defined.

(** * Further properties of [check_restaurant_availability] *)

Section AvailabilityExtras.

Variable rt : Runtime.

Lemma slot_available_flag_on w date day partySize t :
  availability (db w) !! date = Some day ->
  slot_available (db w) date t partySize = flag_on day partySize t.
Proof. intros Hd. unfold slot_available, slot_flag, flag_on. now rewrite Hd. Qed.

Lemma slot_available_true d date time partySize :
  slot_available d date time partySize = true <->
  slot_flag d date time partySize = Some true.
Proof.
  unfold slot_available.
  destruct (slot_flag d date time partySize) as [[|]|]; simpl; split;
    congruence.
Qed.

Lemma alternates_nil_iff day partySize time :
  alternates rt day partySize time = [] <->
  forall t, In t (day_keys day) ->
            within_30_minutes (Date_getTime rt t) (Date_getTime rt time) = true ->
            flag_on day partySize t = false.
Proof.
  split.
  - intros E t Hk Hr.
    destruct (flag_on day partySize t) eqn:Hf; [|reflexivity].
    assert (H : In {| slot_time := t; isAvailable := true |}
                   (alternates rt day partySize time))
      by (apply alternates_In; simpl; auto).
    rewrite E in H. destruct H.
  - intros H.
    destruct (alternates rt day partySize time) as [|s l] eqn:E; [reflexivity|].
    assert (Hs : In s (alternates rt day partySize time))
      by (rewrite E; now left).
    apply alternates_In in Hs as (Hk & Hr & Hf & _).
    rewrite (H _ Hk Hr) in Hf. discriminate.
Qed.

End AvailabilityExtras.

(** X1. A date that is neither a key of the store nor a name found on
    [Object.prototype] is answered without looking at the time or the party
    size: [available: false], no slot list, and the message "No availability
    found for this date."; the world is unchanged. *)
Theorem check_unknown_date
    (rt : Runtime) (rn : option string) (date time : string) (partySize : Z)
    (platform : option Platform) (w : World) :
  availability (db w) !! date = None ->
  Object_prototype rt date = None ->
  check_restaurant_availability rt rn date time partySize platform w
  = (w, Return {| available := false; availableSlots := None;
                  availability_message :=
                    Some "No availability found for this date." |}).
Proof. apply check_unseeded. Qed.

Lemma check_unknown_date_witness :
  check_restaurant_availability demo None "2024-08-03" "19:00" 2 None
    initial_world
  = (initial_world,
     Return {| available := false; availableSlots := None;
               availability_message :=
                 Some "No availability found for this date." |}).
Proof.
  apply (check_unknown_date demo None "2024-08-03" "19:00" 2 None initial_world);
    reflexivity.
Defined.

(** X2. For a date that is a key of the store, or that is no property at all
    (neither a key nor a name found on [Object.prototype]), the handler
    returns, and the [available] field of its answer is exactly the store's
    flag for the requested slot (a missing slot counts as not available),
    whatever the clock parsing does; when it is [true] the slot list is the
    requested time alone, tagged available. *)
Theorem check_reports_the_exact_flag
    (rt : Runtime) (rn : option string) (date time : string) (partySize : Z)
    (platform : option Platform) (w : World) :
  is_Some (availability (db w) !! date) \/ Object_prototype rt date = None ->
  exists r,
    check_restaurant_availability rt rn date time partySize platform w
    = (w, Return r)
    /\ available r = slot_available (db w) date time partySize
    /\ (available r = true ->
        availableSlots r = Some [ {| slot_time := time; isAvailable := true |} ]
        /\ availability_message r = Some "Slot is available.").
Proof.
  intros Hown.
  destruct (availability (db w) !! date) as [day|] eqn:Hd.
  - rewrite (check_unfold rt _ _ _ _ _ _ _ Hd).
    rewrite (slot_available_flag_on w date day partySize time Hd).
    destruct (flag_on day partySize time).
    + eexists. split; [reflexivity|]. simpl. auto.
    + destruct (0 <? length (alternates rt day partySize time))%nat;
        eexists; (split; [reflexivity|]); simpl; split; auto; discriminate.
  - destruct Hown as [[day Hday]|Hp]; [discriminate|].
    rewrite (check_unseeded rt _ _ _ _ _ _ Hd Hp).
    eexists. split; [reflexivity|]. simpl.
    unfold slot_available, slot_flag. rewrite Hd. simpl.
    split; [reflexivity | discriminate].
Qed.

Lemma check_reports_the_exact_flag_witness :
  exists r,
    check_restaurant_availability demo None "2024-08-01" "19:30" 4 None
      initial_world
    = (initial_world, Return r)
    /\ available r = slot_available (db initial_world) "2024-08-01" "19:30" 4
    /\ (available r = true ->
        availableSlots r = Some [ {| slot_time := "19:30"; isAvailable := true |} ]
        /\ availability_message r = Some "Slot is available.").
Proof.
  apply (check_reports_the_exact_flag demo None "2024-08-01" "19:30" 4 None
           initial_world).
  left. vm_compute. eauto.
Defined.

(** X3. On a seeded date, when neither the requested slot nor any known time
    of that date within 30 minutes of it is available for the party size, the
    answer carries no slot list at all, only [available: false] and the
    message "No suitable slots found within 30 minutes of your requested
    time.". *)
Theorem check_nothing_nearby
    (rt : Runtime) (rn : option string) (date time : string) (partySize : Z)
    (platform : option Platform) (w : World) (day : Day) :
  availability (db w) !! date = Some day ->
  slot_available (db w) date time partySize = false ->
  (forall t, In t (day_keys day) ->
     within_30_minutes (Date_getTime rt t) (Date_getTime rt time) = true ->
     slot_available (db w) date t partySize = false) ->
  check_restaurant_availability rt rn date time partySize platform w
  = (w, Return {| available := false; availableSlots := None;
                  availability_message :=
                    Some "No suitable slots found within 30 minutes of your requested time." |}).
Proof.
  intros Hd Hexact Hnone.
  rewrite (check_unfold rt _ _ _ _ _ _ _ Hd).
  rewrite <- (slot_available_flag_on w date day partySize time Hd), Hexact.
  replace (alternates rt day partySize time) with (@nil AvailableSlot);
    [reflexivity|].
  symmetry. apply alternates_nil_iff. intros t Hk Hr.
  rewrite <- (slot_available_flag_on w date day partySize t Hd). auto.
Qed.

Lemma check_nothing_nearby_witness :
  check_restaurant_availability demo None "2024-08-01" "21:30" 2 None
    initial_world
  = (initial_world,
     Return {| available := false; availableSlots := None;
               availability_message :=
                 Some "No suitable slots found within 30 minutes of your requested time." |}).
Proof.
  refine (check_nothing_nearby demo None "2024-08-01" "21:30" 2 None
            initial_world
            [ ("18:00", {[ 2 := true; 4 := true ]});
              ("18:30", {[ 2 := true; 4 := false ]});
              ("19:00", {[ 2 := true; 4 := true ]});
              ("19:30", {[ 2 := false; 4 := true ]});
              ("20:00", {[ 2 := true; 4 := true ]});
              ("20:30", {[ 2 := true; 4 := false ]}) ] _ _ _).
  - reflexivity.
  - reflexivity.
  - simpl. intros t [<-|[<-|[<-|[<-|[<-|[<-|[]]]]]]] H;
      vm_compute in H; discriminate.
Defined.

(** X4. A requested time that does not parse to a valid clock time has no
    neighbours: every difference is [NaN] and [NaN <= 30] is false.  Unless
    the exact key happens to be an available slot, the answer on a seeded
    date is the "No suitable slots" one. *)
Theorem check_unparsable_time
    (rt : Runtime) (rn : option string) (date time : string) (partySize : Z)
    (platform : option Platform) (w : World) (day : Day) :
  availability (db w) !! date = Some day ->
  Date_getTime rt time = None ->
  slot_available (db w) date time partySize = false ->
  check_restaurant_availability rt rn date time partySize platform w
  = (w, Return {| available := false; availableSlots := None;
                  availability_message :=
                    Some "No suitable slots found within 30 minutes of your requested time." |}).
Proof.
  intros Hd Hnan Hexact.
  rewrite (check_unfold rt _ _ _ _ _ _ _ Hd).
  rewrite <- (slot_available_flag_on w date day partySize time Hd), Hexact.
  replace (alternates rt day partySize time) with (@nil AvailableSlot);
    [reflexivity|].
  symmetry. apply alternates_nil_iff. intros t _ Hr.
  rewrite Hnan in Hr. unfold within_30_minutes in Hr.
  destruct (Date_getTime rt t); discriminate.
Qed.

Lemma check_unparsable_time_witness :
  check_restaurant_availability demo None "2024-08-01" "7pm" 2 None
    initial_world
  = (initial_world,
     Return {| available := false; availableSlots := None;
               availability_message :=
                 Some "No suitable slots found within 30 minutes of your requested time." |}).
Proof.
  refine (check_unparsable_time demo None "2024-08-01" "7pm" 2 None
            initial_world
            [ ("18:00", {[ 2 := true; 4 := true ]});
              ("18:30", {[ 2 := true; 4 := false ]});
              ("19:00", {[ 2 := true; 4 := true ]});
              ("19:30", {[ 2 := false; 4 := true ]});
              ("20:00", {[ 2 := true; 4 := true ]});
              ("20:30", {[ 2 := true; 4 := false ]}) ] _ _ _);
    reflexivity.
Defined.

(** X5. On a date that is a key of the store, whatever slot list the
    availability answer carries, each of its entries can be booked at once:
    [book_table] for the same date and party size at the entry's time
    succeeds. *)
Theorem offered_slots_are_bookable
    (rt : Runtime) (rn rn' : option string) (date time : string)
    (partySize : Z) (platform : option Platform) (w : World) (day : Day)
    (r : RestaurantAvailabilityResult) (slots : list AvailableSlot)
    (s : AvailableSlot) :
  availability (db w) !! date = Some day ->
  check_restaurant_availability rt rn date time partySize platform w
  = (w, Return r) ->
  availableSlots r = Some slots ->
  In s slots ->
  exists w1 code,
    book_table rt rn' date (slot_time s) partySize w
    = (w1, Return {| success := true; confirmationNumber := Some code;
                     booking_message := Some "Booking successful." |}).
Proof.
  intros Hd Hcheck Hslots Hin.
  assert (Hflag : slot_flag (db w) date (slot_time s) partySize = Some true).
  { apply slot_available_true.
    rewrite (check_unfold rt _ _ _ _ _ _ _ Hd) in Hcheck.
    injection Hcheck as <-.
    rewrite (slot_available_flag_on w date day partySize _ Hd).
    destruct (flag_on day partySize time) eqn:Hexact.
    - simpl in Hslots. injection Hslots as <-.
      destruct Hin as [<-|[]]. exact Hexact.
    - destruct (0 <? length (alternates rt day partySize time))%nat;
        simpl in Hslots; [|discriminate].
      injection Hslots as <-.
      now apply alternates_In in Hin as (_ & _ & Hf & _). }
  destruct (book_table_available rt rn' _ _ _ _ Hflag) as (day' & _ & _ & E).
  eauto.
Qed.

Lemma offered_slots_are_bookable_witness :
  exists w1 code,
    book_table demo None "2024-08-01" "20:00" 2 initial_world
    = (w1, Return {| success := true; confirmationNumber := Some code;
                     booking_message := Some "Booking successful." |}).
Proof.
  refine (offered_slots_are_bookable demo None None "2024-08-01" "19:30" 2 None
            initial_world
            [ ("18:00", {[ 2 := true; 4 := true ]});
              ("18:30", {[ 2 := true; 4 := false ]});
              ("19:00", {[ 2 := true; 4 := true ]});
              ("19:30", {[ 2 := false; 4 := true ]});
              ("20:00", {[ 2 := true; 4 := true ]});
              ("20:30", {[ 2 := true; 4 := false ]}) ]
            {| available := false;
               availableSlots :=
                 Some [ {| slot_time := "19:00"; isAvailable := true |};
                        {| slot_time := "20:00"; isAvailable := true |} ];
               availability_message :=
                 Some "Requested slot unavailable, but other nearby slots are available." |}
            [ {| slot_time := "19:00"; isAvailable := true |};
              {| slot_time := "20:00"; isAvailable := true |} ]
            {| slot_time := "20:00"; isAvailable := true |} _ _ _ _).
  - reflexivity.
  - vm_compute; reflexivity.
  - reflexivity.
  - simpl; auto.
Defined.

(** * Further properties of [book_table] and of runs *)

Section BookingExtras.

Variable rt : Runtime.

Lemma booked_day w date time partySize day d :
  availability (db w) !! date = Some day ->
  day_keys <$> (availability (db (booked rt w date time partySize day)) !! d)
  = day_keys <$> (availability (db w) !! d).
Proof.
  intros Hd. unfold booked, cleared; simpl.
  destruct (decide (d = date)) as [->|Hne].
  - rewrite lookup_insert_eq, Hd. simpl. now rewrite day_keys_assign.
  - now rewrite lookup_insert_ne by congruence.
Qed.

Lemma length_substring n m s :
  String.length (String.substring n m s) = Nat.min m (String.length s - n).
Proof.
  revert n m. induction s as [|c s IH]; intros n m.
  - destruct n, m; simpl; lia.
  - destruct n as [|n]; destruct m as [|m]; simpl; try reflexivity.
    + now rewrite IH, Nat.sub_0_r.
    + rewrite IH. reflexivity.
    + rewrite IH. reflexivity.
Qed.

Lemma length_toUpperCase s : String.length (toUpperCase s) = String.length s.
Proof. induction s as [|c s IH]; simpl; congruence. Qed.

Lemma length_append s1 s2 :
  String.length (s1 +:+ s2) = (String.length s1 + String.length s2)%nat.
Proof.
  induction s1 as [|c s1 IH]; [reflexivity|].
  change (S (String.length (s1 +:+ s2))
          = S (String.length s1 + String.length s2)).
  now rewrite IH.
Qed.

Lemma repeat_book_unavailable date time partySize n w :
  slot_available (db w) date time partySize = false ->
  final_world rt (repeat (book_call date time partySize) n) w = w.
Proof.
  intros H. induction n as [|n IH]; simpl; [reflexivity|].
  unfold call_tool. rewrite fst_bind_ret.
  destruct (book_table_step rt None date time partySize w)
    as [->|(day & Hf & _)]; [exact IH|].
  unfold slot_available in H. rewrite Hf in H. discriminate.
Qed.

Lemma log_consistent_booked w date time partySize day :
  slot_flag (db w) date time partySize = Some true ->
  availability (db w) !! date = Some day ->
  is_Some (day_lookup day time) ->
  log_consistent (db w) ->
  log_consistent (db (booked rt w date time partySize day)).
Proof.
  intros Hf Hd Ht [Hnd Hall]. unfold log_consistent.
  assert (Hfresh : ~ In (date, time, partySize)
                        (map booking_key (bookings (db w)))).
  { intros Hin. apply in_map_iff in Hin as (b & Hk & Hb).
    rewrite List.Forall_forall in Hall. specialize (Hall b Hb).
    unfold booking_key in Hk. injection Hk as <- <- <-. congruence. }
  split.
  - simpl. rewrite map_app. simpl.
    apply NoDup_app. split; [assumption|]. split.
    + intros k Hk Hk'. apply list_elem_of_In in Hk.
      apply list_elem_of_singleton in Hk'. subst k. contradiction.
    + apply NoDup_singleton.
  - unfold booked; simpl. apply Forall_app. split.
    + apply List.Forall_forall. intros b Hb.
      rewrite (slot_flag_cleared _ _ _ _ _ _ _ _ _ Hd Ht).
      destruct (decide _); [reflexivity|].
      rewrite List.Forall_forall in Hall. now apply Hall.
    + constructor; [|constructor]. simpl.
      rewrite (slot_flag_cleared _ _ _ _ _ _ _ _ _ Hd Ht).
      now rewrite decide_True.
Qed.

End BookingExtras.

(** X6. [book_table] touches at most the slot it is asked for: after the
    call, successful or not, the flag of every other (date, time, party size)
    is what it was, existing records of the log are kept in place, and the
    chat session is untouched. *)
Theorem book_table_touches_one_slot
    (rt : Runtime) (rn : option string) (date time : string) (partySize : Z)
    (w : World) :
  let w' := fst (book_table rt rn date time partySize w) in
  (forall date' time' partySize',
     ~ (date' = date /\ time' = time /\ partySize' = partySize) ->
     slot_flag (db w') date' time' partySize'
     = slot_flag (db w) date' time' partySize')
  /\ (exists added, bookings (db w') = bookings (db w) ++ added)
  /\ chat w' = chat w.
Proof.
  intros w'. unfold w'.
  destruct (book_table_step rt rn date time partySize w)
    as [->|(day & Hf & Hd & Ht & ->)].
  - split; [auto|]. split; [exists []; now rewrite app_nil_r | reflexivity].
  - split; [|split; [eexists; reflexivity | reflexivity]].
    intros date' time' partySize' Hne.
    rewrite (slot_flag_booked rt _ _ _ _ _ _ _ _ Hd Ht).
    now rewrite decide_False.
Qed.

(** X7. Handler calls never create or delete slots.  After any sequence of
    calls every date has the same time keys, in the same order, as before,
    and a (date, time, party size) has a flag afterwards exactly when it had
    one before. *)
Theorem handlers_keep_the_slot_layout
    (rt : Runtime) (calls : list (ToolFunction * Args)) (w : World) :
  let w' := final_world rt calls w in
  (forall date,
     day_keys <$> (availability (db w') !! date)
     = day_keys <$> (availability (db w) !! date))
  /\ (forall date time partySize,
        is_Some (slot_flag (db w') date time partySize)
        <-> is_Some (slot_flag (db w) date time partySize)).
Proof.
  revert w. induction calls as [|call calls IH]; intros w; simpl.
  - split; reflexivity.
  - destruct (IH (fst (handle rt call w))) as [IH1 IH2]. split.
    + intros date. rewrite IH1.
      destruct (handle_step rt call w)
        as [->|(d & t & p & day & _ & Hd & _ & ->)]; [reflexivity|].
      now apply booked_day.
    + intros date time partySize. rewrite IH2. apply handle_is_Some_flag.
Qed.

(** X8. The booking log is append-only.  After any sequence of handler calls
    the old log is a prefix of the new one; the number of records added
    equals the number of random numbers drawn, and is at most the number of
    calls. *)
Theorem log_only_grows
    (rt : Runtime) (calls : list (ToolFunction * Args)) (w : World) :
  let w' := final_world rt calls w in
  exists added,
    bookings (db w') = bookings (db w) ++ added
    /\ (randoms w' = randoms w + length added)%nat
    /\ (length added <= length calls)%nat.
Proof.
  revert w. induction calls as [|call calls IH]; intros w; simpl.
  - exists []. rewrite app_nil_r. simpl. repeat split; lia.
  - destruct (IH (fst (handle rt call w))) as (added & Hb & Hr & Hl).
    destruct (handle_step rt call w)
      as [E|(d & t & p & day & _ & _ & _ & E)]; rewrite E in *.
    + exists added. repeat split; auto; lia.
    + simpl in Hb, Hr. eexists (_ :: added). rewrite Hb, <- app_assoc. simpl.
      repeat split; [rewrite Hr | ]; simpl; lia.
Qed.

(** X9. Bookings on the same slot exclude each other.  If no slot is logged
    twice and every logged slot is marked not available, this is still so
    after any sequence of handler calls; it holds at start-up, when the log
    is empty. *)
Theorem log_stays_consistent
    (rt : Runtime) (calls : list (ToolFunction * Args)) (w : World) :
  log_consistent (db w) ->
  log_consistent (db (final_world rt calls w)).
Proof.
  revert w. induction calls as [|call calls IH]; intros w H; simpl;
    [assumption|].
  apply IH.
  destruct (handle_step rt call w)
    as [->|(d & t & p & day & Hf & Hd & Ht & ->)]; [assumption|].
  now apply log_consistent_booked.
Qed.

Lemma log_stays_consistent_witness :
  log_consistent
    (db (final_world demo
           [ book_call "2024-08-01" "19:30" 4;
             book_call "2024-08-01" "19:30" 4;
             check_call "2024-08-01" "19:30" 4;
             book_call "2024-08-02" "19:30" 4 ] initial_world)).
Proof.
  apply (log_stays_consistent demo
           [ book_call "2024-08-01" "19:30" 4;
             book_call "2024-08-01" "19:30" 4;
             check_call "2024-08-01" "19:30" 4;
             book_call "2024-08-02" "19:30" 4 ] initial_world).
  split; simpl; constructor.
Defined.

(** X10. Repeating a booking does not repeat its effect: of any number of
    consecutive [book_table] calls for one available slot, the first succeeds
    and the others change nothing, so the log gains exactly one record and
    one random number is drawn. *)
Theorem repeated_booking_books_once
    (rt : Runtime) (date time : string) (partySize : Z) (n : nat) (w : World) :
  slot_flag (db w) date time partySize = Some true ->
  let w' := final_world rt (repeat (book_call date time partySize) (S n)) w in
  bookings (db w')
  = bookings (db w)
    ++ [ {| booking_date := date; booking_time := time;
            booking_partySize := partySize;
            confirmation := confirmation_of (Math_random rt (randoms w)) |} ]
  /\ slot_flag (db w') date time partySize = Some false
  /\ randoms w' = S (randoms w).
Proof.
  intros H w'. unfold w'. simpl. unfold call_tool, bind.
  destruct (book_table_available rt None _ _ _ _ H) as (day & Hd & Ht & ->).
  simpl.
  assert (Hf : slot_flag (db (booked rt w date time partySize day))
                 date time partySize = Some false).
  { rewrite (slot_flag_booked rt _ _ _ _ _ _ _ _ Hd Ht). now rewrite decide_True. }
  rewrite repeat_book_unavailable
    by (unfold slot_available; now rewrite Hf).
  auto.
Qed.

Lemma repeated_booking_witness :
  let w' := final_world demo (repeat (book_call "2024-08-02" "18:00" 2) 3)
              initial_world in
  bookings (db w')
  = bookings (db initial_world)
    ++ [ {| booking_date := "2024-08-02"; booking_time := "18:00";
            booking_partySize := 2;
            confirmation := confirmation_of (Math_random demo 0) |} ]
  /\ slot_flag (db w') "2024-08-02" "18:00" 2 = Some false
  /\ randoms w' = 1%nat.
Proof.
  apply (repeated_booking_books_once demo "2024-08-02" "18:00" 2 2 initial_world).
  reflexivity.
Defined.

(** X11. A confirmation code is "RES-" followed by at most nine characters:
    as many as the base-36 rendering of the random number has after its first
    two.  When that rendering has no third character (the number 0 renders as
    "0"), the code is "RES-" alone. *)
Theorem confirmation_code_shape (r : Draw) :
  String.prefix "RES-" (confirmation_of r) = true
  /\ String.length (confirmation_of r)
     = (4 + Nat.min 9 (String.length (base36 r) - 2))%nat
  /\ ((String.length (base36 r) <= 2)%nat -> confirmation_of r = "RES-").
Proof.
  unfold confirmation_of, substr.
  split; [apply String.prefix_correct; simpl; now destruct (toUpperCase _)|].
  split.
  - rewrite length_append, length_toUpperCase, length_substring. reflexivity.
  - intros H.
    assert (E : String.length (toUpperCase (String.substring 2 9 (base36 r)))
                = 0%nat)
      by (rewrite length_toUpperCase, length_substring; lia).
    destruct (toUpperCase (String.substring 2 9 (base36 r)));
      [reflexivity | discriminate].
Qed.

(** * Further properties of the service *)

Section ServiceExtras.

Variable rt : Runtime.

Lemma sendMessage_without_session userMessage w :
  chat w = None ->
  sendMessage rt userMessage w
  = match process_env_API_KEY rt with
    | Some key =>
        if String.eqb key "" then
          (w, Throw {| error_message :=
                         Some "API_KEY is not defined in environment variables." |})
        else
          sendMessage rt userMessage
            (set_chat (Some {| chat_apiKey := key; chat_requests := [] |}) w)
    | None =>
        (w, Throw {| error_message :=
                       Some "API_KEY is not defined in environment variables." |})
    end.
Proof.
  intros Hc. unfold sendMessage at 1.
  rewrite (bind_return _ _ w w None) by (unfold gets; now rewrite Hc).
  cbn [defined negb].
  unfold initChat, getApiKey.
  destruct (process_env_API_KEY rt) as [key|]; simpl; [|reflexivity].
  destruct (String.eqb key "") eqn:E; simpl; [reflexivity|].
  unfold sendMessage, bind, modify, ret, gets. simpl. reflexivity.
Qed.

Lemma sendMessage_returns userMessage w c :
  chat w = Some c -> exists w' r, sendMessage rt userMessage w = (w', Return r).
Proof.
  intros Hc.
  destruct (sendMessage_cases rt userMessage w c Hc)
    as [(e & _ & ->)|[(resp & _ & _ & ->)
        |[(resp & fc & rest & w2 & out & _ & _ & _ & ->)
         |(resp & fc & rest & w2 & e & _ & _ & _ & ->)]]]; eauto.
Qed.

Lemma sendMessage_session userMessage w c :
  chat w = Some c ->
  exists c',
    chat (fst (sendMessage rt userMessage w)) = Some c'
    /\ chat_apiKey c' = chat_apiKey c
    /\ (chat_requests c' = chat_requests c ++ [UserMessage userMessage]
        \/ exists id name out,
             chat_requests c'
             = chat_requests c
               ++ [UserMessage userMessage; FunctionResponse id name out]).
Proof.
  intros Hc.
  destruct (sendMessage_cases rt userMessage w c Hc)
    as [(e & _ & ->)|[(resp & _ & _ & ->)
        |[(resp & fc & rest & w2 & out & _ & _ & _ & ->)
         |(resp & fc & rest & w2 & e & _ & _ & Hexec & ->)]]]; simpl.
  - eexists; eauto.
  - eexists; eauto.
  - eexists. split; [reflexivity|]. split; [reflexivity|].
    right. exists (fc_id fc), (fc_name fc), out.
    simpl. now rewrite <- app_assoc.
  - destruct (execute_call_frame rt fc
                (ticked (set_chat (Some (asked c (UserMessage userMessage))) w)))
      as [H _].
    rewrite Hexec in H. simpl in H.
    eexists. split; [exact H|]. split; [reflexivity|]. now left.
Qed.

(** What a turn does to the store: nothing, or one booking made by a first
    call named "book_table". *)
Lemma sendMessage_store userMessage w c :
  chat w = Some c ->
  db (fst (sendMessage rt userMessage w)) = db w
  \/ exists resp fc rest date time partySize day,
       chat_reply rt (asked c (UserMessage userMessage)) = Return resp
       /\ response_functionCalls resp = Some (fc :: rest)
       /\ fc_name fc = "book_table"
       /\ slot_flag (db w) date time partySize = Some true
       /\ availability (db w) !! date = Some day
       /\ is_Some (day_lookup day time)
       /\ exists code,
            db (fst (sendMessage rt userMessage w))
            = {| availability := cleared (db w) date time partySize day;
                 bookings := bookings (db w)
                   ++ [ {| booking_date := date; booking_time := time;
                           booking_partySize := partySize;
                           confirmation := code |} ] |}.
Proof.
  intros Hc.
  destruct (sendMessage_cases rt userMessage w c Hc)
    as [(e & _ & ->)|[(resp & _ & _ & ->)
        |[(resp & fc & rest & w2 & out & Hr & Hcalls & Hexec & ->)
         |(resp & fc & rest & w2 & e & Hr & Hcalls & Hexec & ->)]]]; simpl;
    try (now left);
    (assert (Hw2 : w2 = fst (execute_call rt fc
                     (ticked (set_chat
                        (Some (asked c (UserMessage userMessage))) w))))
       by now rewrite Hexec);
    (destruct (execute_call_step rt fc
                 (ticked (set_chat (Some (asked c (UserMessage userMessage))) w)))
       as [E|(d & t & p & day & Hname & Hf & Hd & Ht & E)];
     rewrite E in Hw2; subst w2; [now left|]);
    right; exists resp, fc, rest, d, t, p, day;
    repeat (split; [assumption|]); eexists; reflexivity.
Qed.

End ServiceExtras.

(** X12. The registry test and the dispatch chain, case by case.  A call
    named "check_restaurant_availability" runs the availability handler on
    the call's five arguments; a call named "book_table" runs the booking
    handler on its four; in both cases the handler's payload is the call's
    payload and an exception of the handler is the call's exception.  Any
    other name that the registry test finds through the prototype chain (a
    member of [Object.prototype]) passes the test and falls to the last arm:
    the payload is "Function <name> not handled.".  A name found nowhere is
    answered with "Function <name> not found.".  In the last two cases
    nothing is executed and the world is unchanged. *)
Theorem dispatch_runs_the_named_handler
    (rt : Runtime) (fc : FunctionCall) (w : World) :
  let a := fc_args fc in
  (fc_name fc = "check_restaurant_availability"
   /\ execute_call rt fc w
      = let (w', outcome) :=
          check_restaurant_availability rt (arg_restaurant_name a) (arg_date a)
            (arg_time a) (arg_partySize a) (arg_platform a) w in
        (w', match outcome with
             | Return r => Return (AvailabilityOutput r)
             | Throw e => Throw e
             end))
  \/ (fc_name fc = "book_table"
      /\ execute_call rt fc w
         = let (w', outcome) :=
             book_table rt (arg_restaurant_name a) (arg_date a) (arg_time a)
               (arg_partySize a) w in
           (w', match outcome with
                | Return r => Return (BookingOutput r)
                | Throw e => Throw e
                end))
  \/ (toolFunctions !! fc_name fc = None
      /\ is_Some (Object_prototype rt (fc_name fc))
      /\ execute_call rt fc w
         = (w, Return (ErrorOutput
                         ("Function " +:+ fc_name fc +:+ " not handled."))))
  \/ (toolFunctions !! fc_name fc = None
      /\ Object_prototype rt (fc_name fc) = None
      /\ execute_call rt fc w
         = (w, Return (ErrorOutput
                         ("Function " +:+ fc_name fc +:+ " not found.")))).
Proof.
  intros a. unfold execute_call, registry_has, run_tool, call_registered.
  rewrite (toolFunctions_lookup (fc_name fc)).
  destruct (String.eqb (fc_name fc) "check_restaurant_availability") eqn:E1.
  - left. apply String.eqb_eq in E1. split; [assumption|].
    cbn [defined orb]. unfold call_tool, bind. fold a.
    destruct (check_restaurant_availability rt (arg_restaurant_name a)
                (arg_date a) (arg_time a) (arg_partySize a) (arg_platform a) w)
      as [w' [r|e]]; reflexivity.
  - destruct (String.eqb (fc_name fc) "book_table") eqn:E2.
    + right; left. apply String.eqb_eq in E2. split; [assumption|].
      cbn [defined orb]. unfold call_tool, bind. fold a.
      destruct (book_table rt (arg_restaurant_name a) (arg_date a)
                  (arg_time a) (arg_partySize a) w) as [w' [r|e]]; reflexivity.
    + right; right. cbn [defined orb].
      destruct (Object_prototype rt (fc_name fc)) as [read|] eqn:Hp.
      * left. split; [reflexivity|]. split; [eexists; reflexivity|].
        reflexivity.
      * right. split; [reflexivity|]. split; reflexivity.
Qed.

(** X13. When the model answers without tool calls (the list is undefined or
    empty), the turn ends at once: its text is the model's text, or the empty
    string when there is none, both traces are empty lists, the session has
    received the user's message only, and nothing else in the world has
    changed. *)
Theorem turn_without_tool_calls
    (rt : Runtime) (userMessage : string) (w : World) (c : Chat)
    (resp : GenerateContentResponse) :
  chat w = Some c ->
  chat_reply rt (asked c (UserMessage userMessage)) = Return resp ->
  response_functionCalls resp = None \/ response_functionCalls resp = Some [] ->
  sendMessage rt userMessage w
  = ({| db := db w;
        chat := Some {| chat_apiKey := chat_apiKey c;
                        chat_requests := chat_requests c ++ [UserMessage userMessage] |};
        randoms := randoms w; nows := nows w |},
     Return {| text := or_empty (response_text resp);
               functionCalls := Some []; toolResponses := Some [] |}).
Proof. intros Hc Hr Hcalls. exact (sendMessage_no_calls rt _ _ _ _ Hc Hr Hcalls). Qed.

Lemma turn_without_tool_calls_witness :
  sendMessage demo "Hello" ready_world
  = ({| db := dummyRestaurantDB;
        chat := Some {| chat_apiKey := "secret";
                        chat_requests := [] ++ [UserMessage "Hello"] |};
        randoms := 0; nows := 0 |},
     Return {| text := ""; functionCalls := Some []; toolResponses := Some [] |}).
Proof.
  apply (turn_without_tool_calls demo "Hello" ready_world
           {| chat_apiKey := "secret"; chat_requests := [] |} no_text).
  - reflexivity.
  - reflexivity.
  - left; reflexivity.
Defined.

(** X14. [sendMessage] raises in one situation only: the service holds no
    session and the environment holds no credential, so that the
    re-initialisation in front of the [try] block throws.  In every other
    state it returns a result. *)
Theorem sendMessage_raises_only_unconfigured
    (rt : Runtime) (userMessage : string) (w : World) :
  (exists w' e, sendMessage rt userMessage w = (w', Throw e))
  <-> chat w = None /\ truthy_string (process_env_API_KEY rt) = false.
Proof.
  split.
  - intros (w' & e & H).
    destruct (chat w) as [c|] eqn:Hc.
    + destruct (sendMessage_returns rt userMessage w c Hc) as (w2 & r & E).
      rewrite E in H. discriminate.
    + split; [reflexivity|].
      rewrite (sendMessage_without_session rt userMessage w Hc) in H.
      destruct (process_env_API_KEY rt) as [key|]; [|reflexivity].
      simpl. destruct (String.eqb key "") eqn:Ek; [reflexivity|].
      destruct (sendMessage_returns rt userMessage
                  (set_chat (Some {| chat_apiKey := key; chat_requests := [] |}) w)
                  _ eq_refl) as (w2 & r & E).
      rewrite E in H. discriminate.
  - intros [Hc Hk].
    rewrite (sendMessage_without_session rt userMessage w Hc).
    destruct (process_env_API_KEY rt) as [key|]; [|eauto].
    simpl in Hk. destruct (String.eqb key ""); [eauto | discriminate].
Qed.

(** X15. A service without a session creates one before the turn: when the
    credential is there, [sendMessage] behaves exactly as on a service whose
    session was just created with that credential and has no history. *)
Theorem sendMessage_recreates_the_session
    (rt : Runtime) (userMessage : string) (w : World) (key : string) :
  chat w = None ->
  process_env_API_KEY rt = Some key ->
  key <> "" ->
  sendMessage rt userMessage w
  = sendMessage rt userMessage
      (set_chat (Some {| chat_apiKey := key; chat_requests := [] |}) w).
Proof.
  intros Hc Hk Hne.
  rewrite (sendMessage_without_session rt userMessage w Hc), Hk.
  destruct (String.eqb key "") eqn:E; [|reflexivity].
  apply String.eqb_eq in E. contradiction.
Qed.

Lemma sendMessage_recreates_the_session_witness :
  sendMessage demo "Hello" initial_world
  = sendMessage demo "Hello"
      (set_chat (Some {| chat_apiKey := "secret"; chat_requests := [] |})
                initial_world).
Proof.
  apply (sendMessage_recreates_the_session demo "Hello" initial_world "secret").
  - reflexivity.
  - reflexivity.
  - discriminate.
Defined.

(** X16. One turn is bounded.  On a service with a session, [sendMessage]
    keeps the credential and the earlier history of the session and adds the
    user's message, followed by at most one tool result; it adds at most one
    record to the booking log and never makes an unavailable slot
    available. *)
Theorem turn_is_bounded
    (rt : Runtime) (userMessage : string) (w : World) (c : Chat) :
  chat w = Some c ->
  let w' := fst (sendMessage rt userMessage w) in
  (exists c',
     chat w' = Some c'
     /\ chat_apiKey c' = chat_apiKey c
     /\ (chat_requests c' = chat_requests c ++ [UserMessage userMessage]
         \/ exists id name out,
              chat_requests c'
              = chat_requests c
                ++ [UserMessage userMessage; FunctionResponse id name out]))
  /\ (bookings (db w') = bookings (db w)
      \/ exists b, bookings (db w') = bookings (db w) ++ [b])
  /\ (forall date time partySize,
        slot_available (db w) date time partySize = false ->
        slot_available (db w') date time partySize = false).
Proof.
  intros Hc w'. unfold w'.
  split; [exact (sendMessage_session rt userMessage w c Hc)|].
  destruct (sendMessage_store rt userMessage w c Hc)
    as [E|(resp & fc & rest & d & t & p & day & _ & _ & _ & Hf & Hd & Ht
           & code & E)]; rewrite E.
  - auto.
  - simpl. split; [right; eauto|].
    intros date time partySize Hu.
    unfold slot_available.
    rewrite (slot_flag_cleared _ _ _ _ _ _ _ _ _ Hd Ht).
    destruct (decide _); [reflexivity | exact Hu].
Qed.

Lemma turn_is_bounded_witness :
  let w' := fst (sendMessage two_calls "A table for 2" ready_world) in
  (exists c',
     chat w' = Some c'
     /\ chat_apiKey c' = "secret"
     /\ (chat_requests c' = [] ++ [UserMessage "A table for 2"]
         \/ exists id name out,
              chat_requests c'
              = [] ++ [UserMessage "A table for 2"; FunctionResponse id name out]))
  /\ (bookings (db w') = bookings (db ready_world)
      \/ exists b, bookings (db w') = bookings (db ready_world) ++ [b])
  /\ (forall date time partySize,
        slot_available (db ready_world) date time partySize = false ->
        slot_available (db w') date time partySize = false).
Proof.
  apply (turn_is_bounded two_calls "A table for 2" ready_world
           {| chat_apiKey := "secret"; chat_requests := [] |}).
  reflexivity.
Defined.

(** X17. A booking made during a turn is not undone when the turn then
    fails.  If the model's first call is "book_table" for an available slot
    and the request that reports the result to the model throws, the turn
    returns the [catch] block's text without any trace, while the slot is
    booked: its flag is [false] and the log holds the new record. *)
Theorem booking_survives_a_failed_followup
    (rt : Runtime) (userMessage : string) (w : World) (c : Chat)
    (resp : GenerateContentResponse) (fc : FunctionCall)
    (rest : list FunctionCall) (e : Error) :
  chat w = Some c ->
  let c1 := asked c (UserMessage userMessage) in
  let a := fc_args fc in
  chat_reply rt c1 = Return resp ->
  response_functionCalls resp = Some (fc :: rest) ->
  fc_name fc = "book_table" ->
  slot_flag (db w) (arg_date a) (arg_time a) (arg_partySize a) = Some true ->
  let code := confirmation_of (Math_random rt (S (randoms w))) in
  chat_reply rt
    (asked c1 (FunctionResponse (fc_id fc) (fc_name fc)
                 (BookingOutput {| success := true;
                                   confirmationNumber := Some code;
                                   booking_message := Some "Booking successful." |})))
  = Throw e ->
  exists w',
    sendMessage rt userMessage w = (w', Return (error_result e))
    /\ slot_flag (db w') (arg_date a) (arg_time a) (arg_partySize a) = Some false
    /\ bookings (db w')
       = bookings (db w)
         ++ [ {| booking_date := arg_date a; booking_time := arg_time a;
                 booking_partySize := arg_partySize a; confirmation := code |} ].
Proof.
  intros Hc c1 a Hr Hcalls Hname Hflag code Hfail.
  set (w1 := ticked (set_chat (Some c1) w)).
  assert (Hflag1 : slot_flag (db w1) (arg_date a) (arg_time a) (arg_partySize a)
                   = Some true) by exact Hflag.
  destruct (book_table_available rt (arg_restaurant_name a) _ _ _ _ Hflag1)
    as (day & Hd & Ht & Hbook).
  assert (Hexec :
    execute_call rt fc w1
    = (booked rt w1 (arg_date a) (arg_time a) (arg_partySize a) day,
       Return (BookingOutput {| success := true;
                                confirmationNumber := Some code;
                                booking_message := Some "Booking successful." |}))).
  { unfold execute_call, registry_has, run_tool, call_registered.
    rewrite toolFunctions_lookup, Hname. simpl.
    unfold call_tool, bind. fold a. now rewrite Hbook. }
  eexists. split.
  - rewrite (sendMessage_with_calls rt userMessage w c resp fc rest _ _
               Hc Hr Hcalls Hexec).
    fold c1. now rewrite Hfail.
  - simpl. split; [|reflexivity].
    rewrite (slot_flag_cleared _ _ _ _ _ _ _ _ _ Hd Ht).
    now rewrite decide_True.
Qed.

(** X18. Only a "book_table" call can change the store during a turn.  If
    the first call the model asks for, if any, has another name, the store
    after [sendMessage] is the store before it, whether the turn ends with
    the model's text or with an error message. *)
Theorem turn_changes_store_only_by_booking
    (rt : Runtime) (userMessage : string) (w : World) (c : Chat) :
  chat w = Some c ->
  (forall resp fc rest,
     chat_reply rt (asked c (UserMessage userMessage)) = Return resp ->
     response_functionCalls resp = Some (fc :: rest) ->
     fc_name fc <> "book_table") ->
  db (fst (sendMessage rt userMessage w)) = db w.
Proof.
  intros Hc Hnot.
  destruct (sendMessage_store rt userMessage w c Hc)
    as [E|(resp & fc & rest & d & t & p & day & Hr & Hcalls & Hname & _)].
  - exact E.
  - exfalso. exact (Hnot resp fc rest Hr Hcalls Hname).
Qed.

Lemma turn_changes_store_only_by_booking_witness :
  db (fst (sendMessage two_calls "A table for 2" ready_world)) = db ready_world.
Proof.
  apply (turn_changes_store_only_by_booking two_calls "A table for 2"
           ready_world {| chat_apiKey := "secret"; chat_requests := [] |}).
  - reflexivity.
  - intros resp fc rest Hr Hcalls.
    vm_compute in Hr. injection Hr as <-.
    simpl in Hcalls. injection Hcalls as <- _. discriminate.
Defined.

(** X19. A service that could be constructed always answers.  When the
    environment holds a credential, the constructor succeeds, and every
    [sendMessage] on the constructed service returns a result; afterwards the
    session still carries that credential and its history starts with the
    user's message. *)
Theorem constructed_service_always_answers
    (rt : Runtime) (key userMessage : string) (w : World) :
  process_env_API_KEY rt = Some key ->
  key <> "" ->
  exists w1 w2 r c,
    new_ReservationAgentService rt w = (w1, Return tt)
    /\ sendMessage rt userMessage w1 = (w2, Return r)
    /\ chat w2 = Some c
    /\ chat_apiKey c = key
    /\ exists more, chat_requests c = UserMessage userMessage :: more.
Proof.
  intros Hk Hne.
  set (c0 := {| chat_apiKey := key; chat_requests := [] |}).
  assert (Hnew : new_ReservationAgentService rt w
                 = (set_chat (Some c0) w, Return tt)).
  { unfold new_ReservationAgentService, initChat, getApiKey, bind, modify, ret.
    rewrite Hk. simpl.
    destruct (String.eqb key "") eqn:E; [|reflexivity].
    apply String.eqb_eq in E. contradiction. }
  destruct (sendMessage_returns rt userMessage (set_chat (Some c0) w) c0 eq_refl)
    as (w2 & r & Hsend).
  destruct (sendMessage_session rt userMessage (set_chat (Some c0) w) c0 eq_refl)
    as (c' & Hc' & Hkey & Hreq).
  rewrite Hsend in Hc'. simpl in Hc'.
  exists (set_chat (Some c0) w), w2, r, c'.
  repeat split; try assumption.
  destruct Hreq as [->|(id & name & out & ->)]; simpl; eauto.
Qed.

Lemma constructed_service_witness :
  exists w1 w2 r c,
    new_ReservationAgentService two_calls initial_world = (w1, Return tt)
    /\ sendMessage two_calls "A table for 2" w1 = (w2, Return r)
    /\ chat w2 = Some c
    /\ chat_apiKey c = "secret"
    /\ exists more, chat_requests c = UserMessage "A table for 2" :: more.
Proof.
  apply (constructed_service_always_answers two_calls "secret" "A table for 2"
           initial_world).
  - reflexivity.
  - discriminate.
Defined.

Lemma booking_survives_witness :
  exists w',
    sendMessage failing_followup "Book it" ready_world
    = (w', Return (error_result {| error_message := Some "503 Service Unavailable" |}))
    /\ slot_flag (db w') "2024-08-02" "19:00" 2 = Some false
    /\ bookings (db w')
       = bookings (db ready_world)
         ++ [ {| booking_date := "2024-08-02"; booking_time := "19:00";
                 booking_partySize := 2;
                 confirmation := confirmation_of (Math_random failing_followup 1) |} ].
Proof.
  apply (booking_survives_a_failed_followup failing_followup "Book it"
           ready_world {| chat_apiKey := "secret"; chat_requests := [] |}
           {| response_text := None;
              response_functionCalls := Some [booking_call] |}
           booking_call []
           {| error_message := Some "503 Service Unavailable" |});
    reflexivity.
Defined.

(** * Properties of the application shell *)

Section AppFacts.

Variable rt : Runtime.

(** The trace of a returned turn is empty on both sides or has one entry on
    each. *)
Lemma sendMessage_trace_shape userMessage w c w' r :
  chat w = Some c ->
  sendMessage rt userMessage w = (w', Return r) ->
  (functionCalls r = None /\ toolResponses r = None)
  \/ (functionCalls r = Some [] /\ toolResponses r = Some [])
  \/ (exists fcm trm, functionCalls r = Some [fcm] /\ toolResponses r = Some [trm]).
Proof.
  intros Hc Hsend.
  destruct (sendMessage_cases rt userMessage w c Hc)
    as [(e & _ & E)|[(resp & _ & _ & E)
        |[(resp & fc & rest & w2 & out & _ & _ & _ & E)
         |(resp & fc & rest & w2 & e & _ & _ & _ & E)]]];
    rewrite E in Hsend; injection Hsend as _ <-.
  - left. auto.
  - right; left. auto.
  - destruct (chat_reply rt
                (asked (asked c (UserMessage userMessage))
                   (FunctionResponse (fc_id fc) (fc_name fc) out)));
      [right; right; eauto | left; auto].
  - left. auto.
Qed.

Lemma trace_messages_senders response agent_id :
  Forall (fun m => sender m = tool \/ sender m = agent)
         (trace_messages rt response agent_id).
Proof.
  unfold trace_messages. repeat (apply Forall_app; split).
  - destruct (functionCalls response); [|constructor].
    apply List.Forall_forall. intros m Hm.
    apply in_map_iff in Hm as (fc & <- & _). now left.
  - destruct (toolResponses response); [|constructor].
    apply List.Forall_forall. intros m Hm.
    apply in_map_iff in Hm as (tr & <- & _). now left.
  - constructor; [now right | constructor].
Qed.

End AppFacts.

(** X20. With a service that holds a session, the component's [sendMessage]
    never reaches its own [catch] block, because the service turns every
    model failure into a text.  The list gains the user's message, then at
    most one tool-call and one tool-response message, then one agent message
    whose text is the service's text; no system message is added, the loading
    flag ends [false] and [hasApiKey] is never reset, even for an error that
    mentions "Requested entity was not found.". *)
Theorem app_turn_shows_the_answer
    (rt : Runtime) (text0 : string) (a : AppState) (w : World) (c : Chat) :
  agentService a = true ->
  chat w = Some c ->
  exists w2 response,
    sendMessage rt text0 (snd (read_now rt w)) = (w2, Return response)
    /\ let newMessages :=
         trace_messages rt response ("agent-" +:+ Date_now rt (nows w2)) in
       App_sendMessage rt text0 (a, w)
       = ({| messages :=
               (messages a
                ++ [ {| message_id := "user-" +:+ Date_now rt (nows w);
                        sender := user; message_text := text0;
                        isMarkdown := None |} ])
               ++ newMessages;
             isLoading := false;
             hasApiKey := hasApiKey a;
             agentService := true |},
          snd (read_now rt w2))
       /\ (length newMessages <= 3)%nat
       /\ Forall (fun m => sender m = tool \/ sender m = agent) newMessages.
Proof.
  intros Ha Hc.
  destruct (sendMessage_returns rt text0 (snd (read_now rt w)) c Hc)
    as (w2 & response & Hsend).
  exists w2, response. split; [exact Hsend|].
  intros newMessages. split; [|split].
  - unfold App_sendMessage. rewrite Ha. cbn [negb].
    unfold read_now in *. cbn [snd] in *.
    rewrite Hsend. unfold setIsLoading, add_messages. simpl. now rewrite Ha.
  - destruct (sendMessage_trace_shape rt text0 (snd (read_now rt w)) c w2
                response Hc Hsend)
      as [[H1 H2]|[[H1 H2]|(fcm & trm & H1 & H2)]];
      unfold newMessages, trace_messages; rewrite H1, H2; simpl; lia.
  - apply trace_messages_senders.
Qed.

Lemma app_turn_witness :
  exists w2 response,
    sendMessage failing "Hello" (snd (read_now failing ready_world))
    = (w2, Return response)
    /\ let newMessages :=
         trace_messages failing response
           ("agent-" +:+ Date_now failing (nows w2)) in
       App_sendMessage failing "Hello"
         ({| messages := []; isLoading := false; hasApiKey := true;
             agentService := true |}, ready_world)
       = ({| messages :=
               ([] ++ [ {| message_id := "user-" +:+ Date_now failing 0;
                           sender := user; message_text := "Hello";
                           isMarkdown := None |} ])
               ++ newMessages;
             isLoading := false;
             hasApiKey := true;
             agentService := true |},
          snd (read_now failing w2))
       /\ (length newMessages <= 3)%nat
       /\ Forall (fun m => sender m = tool \/ sender m = agent) newMessages.
Proof.
  apply (app_turn_shows_the_answer failing "Hello"
           {| messages := []; isLoading := false; hasApiKey := true;
              agentService := true |}
           ready_world {| chat_apiKey := "secret"; chat_requests := [] |});
    reflexivity.
Defined.

(** X21. Whatever the state, the component's [sendMessage] only appends to
    the message list and appends at least one message; it does not change
    whether a service is referenced; and a loading flag that was off before
    the call is off after it. *)
Theorem app_sendMessage_appends
    (rt : Runtime) (text0 : string) (a : AppState) (w : World) :
  let a' := fst (App_sendMessage rt text0 (a, w)) in
  (exists m more, messages a' = messages a ++ m :: more)
  /\ agentService a' = agentService a
  /\ (isLoading a = false -> isLoading a' = false).
Proof.
  unfold App_sendMessage.
  destruct (agentService a) eqn:Ha; cbn [negb]; unfold read_now.
  - destruct (sendMessage rt text0 _) as [w2 [response|error]].
    + simpl. rewrite Ha. split; [|auto].
      unfold trace_messages. rewrite <- app_assoc. simpl. eauto.
    + simpl.
      destruct (truthy_string (error_message error)
                && includes (template (error_message error))
                            "Requested entity was not found.");
        simpl; rewrite Ha; (split; [|auto]);
        rewrite <- app_assoc; simpl; eauto.
  - simpl. rewrite Ha. split; [eauto | auto].
Qed.

(** X22. [initializeAgentService] with a credential in the environment sets
    the service reference to a service with a fresh session and adds no
    message.  Without one it adds a single system message, "Error
    initializing agent: API_KEY is not defined in environment variables..
    Please check your API key or environment setup.", and leaves the
    reference and the session it may hold as they were. *)
Theorem initializeAgentService_outcomes
    (rt : Runtime) (a : AppState) (w : World) :
  (forall key, process_env_API_KEY rt = Some key -> key <> "" ->
     initializeAgentService rt (a, w)
     = (set_agentService a,
        set_chat (Some {| chat_apiKey := key; chat_requests := [] |}) w))
  /\ (truthy_string (process_env_API_KEY rt) = false ->
      exists m,
        initializeAgentService rt (a, w)
        = (add_messages [m] a, snd (read_now rt w))
        /\ sender m = system
        /\ message_text m
           = "Error initializing agent: API_KEY is not defined in environment variables.. Please check your API key or environment setup."
        /\ agentService (add_messages [m] a) = agentService a
        /\ chat (snd (read_now rt w)) = chat w).
Proof.
  unfold initializeAgentService, new_ReservationAgentService, initChat,
    getApiKey, bind, modify, throw, ret.
  split.
  - intros key Hk Hne. rewrite Hk. simpl.
    destruct (String.eqb key "") eqn:E; [|reflexivity].
    apply String.eqb_eq in E. contradiction.
  - intros Hk. rewrite Hk. simpl.
    eexists. split; [unfold read_now, set_chat; simpl; reflexivity|].
    repeat split.
Qed.

Lemma initializeAgentService_witness :
  initializeAgentService demo (empty_app, initial_world)
  = (set_agentService empty_app,
     set_chat (Some {| chat_apiKey := "secret"; chat_requests := [] |})
              initial_world).
Proof.
  apply (proj1 (initializeAgentService_outcomes demo empty_app initial_world)
           "secret").
  - reflexivity.
  - discriminate.
Defined.

(** * The handlers on names found through the prototype chain *)

(** X23. A booking request for a slot that is not [true] in the store never
    changes the world.  When, moreover, the date is a key of the store or is
    found nowhere on the prototype chain, [book_table] returns, with
    [success: false], no confirmation number and the message "The requested
    slot is no longer available or never existed.". *)
Theorem book_table_rejects_unavailable
    (rt : Runtime) (rn : option string) (date time : string) (partySize : Z)
    (w : World) :
  slot_flag (db w) date time partySize <> Some true ->
  fst (book_table rt rn date time partySize w) = w
  /\ (is_Some (availability (db w) !! date) \/ Object_prototype rt date = None ->
      exists r,
        book_table rt rn date time partySize w = (w, Return r)
        /\ success r = false
        /\ confirmationNumber r = None
        /\ booking_message r
           = Some "The requested slot is no longer available or never existed.").
Proof.
  intros H.
  assert (Hown : is_Some (availability (db w) !! date)
                 \/ Object_prototype rt date = None ->
                 book_table rt rn date time partySize w
                 = (w, Return slot_unavailable)).
  { intros Hown. now apply book_table_unavailable. }
  split.
  - destruct (availability (db w) !! date) as [day|] eqn:Hd.
    + rewrite Hown; [reflexivity | left; eauto].
    + destruct (Object_prototype rt date) as [read|] eqn:Hp.
      * now rewrite (book_table_inherited rt rn date time partySize w read Hd Hp).
      * rewrite Hown; [reflexivity | now right].
  - intros Hd. exists slot_unavailable. rewrite (Hown Hd). repeat split.
Qed.

Lemma book_table_rejects_unavailable_witness :
  fst (book_table demo None "2024-08-01" "19:30" 2 initial_world) = initial_world
  /\ exists r,
       book_table demo None "2024-08-01" "19:30" 2 initial_world
       = (initial_world, Return r)
       /\ success r = false
       /\ confirmationNumber r = None
       /\ booking_message r
          = Some "The requested slot is no longer available or never existed.".
Proof.
  destruct (book_table_rejects_unavailable demo None "2024-08-01" "19:30" 2
              initial_world) as [Hframe Hret].
  - vm_compute. discriminate.
  - split; [exact Hframe|]. apply Hret. left. vm_compute. eauto.
Defined.

(** X24. When the date is no key of the store but a name found on
    [Object.prototype], and reading the requested time from that member runs
    a throwing accessor, both handlers raise and leave the world as it was:
    [check_restaurant_availability] at its read of the requested slot,
    [book_table] inside its guard. *)
Theorem handlers_raise_on_a_throwing_accessor
    (rt : Runtime) (rn : option string) (date time : string) (partySize : Z)
    (platform : option Platform) (w : World) (read : string -> Read) :
  availability (db w) !! date = None ->
  Object_prototype rt date = Some read ->
  read time = ReadThrows ->
  exists e,
    check_restaurant_availability rt rn date time partySize platform w
    = (w, Throw e)
    /\ book_table rt rn date time partySize w = (w, Throw e).
Proof.
  intros Hd Hp Hread.
  rewrite (check_inherited rt rn date time partySize platform w read Hd Hp),
    (book_table_inherited rt rn date time partySize w read Hd Hp), Hread.
  eauto.
Qed.

Lemma handlers_raise_witness :
  exists e,
    check_restaurant_availability demo None "constructor" "caller" 2 None
      initial_world = (initial_world, Throw e)
    /\ book_table demo None "constructor" "caller" 2 initial_world
       = (initial_world, Throw e).
Proof.
  apply (handlers_raise_on_a_throwing_accessor demo None "constructor" "caller"
           2 None initial_world (read_function "Object"));
    reflexivity.
Defined.

(** X25. The availability query on a date found on [Object.prototype] only.
    When the member's property under the requested time is a string with a
    character at the index of the party size, the query answers that the
    slot is available and offers that very time, although the store has no
    such slot, and [book_table] raises on the offered slot.  When the
    property is not a string, or the string has no such character, the query
    answers "No suitable slots found within 30 minutes of your requested
    time." and [book_table] returns its failure result. *)
Theorem check_on_an_inherited_date
    (rt : Runtime) (rn : option string) (date time : string) (partySize : Z)
    (platform : option Platform) (w : World) (read : string -> Read) :
  availability (db w) !! date = None ->
  Object_prototype rt date = Some read ->
  slot_flag (db w) date time partySize = None
  /\ (forall s,
        read time = ReadString s ->
        is_Some (string_index s partySize) ->
        check_restaurant_availability rt rn date time partySize platform w
        = (w, Return {| available := true;
                        availableSlots :=
                          Some [ {| slot_time := time; isAvailable := true |} ];
                        availability_message := Some "Slot is available." |})
        /\ exists e, book_table rt rn date time partySize w = (w, Throw e))
  /\ (read time = ReadOther
      \/ (exists s, read time = ReadString s /\ string_index s partySize = None) ->
      check_restaurant_availability rt rn date time partySize platform w
      = (w, Return {| available := false; availableSlots := None;
                      availability_message :=
                        Some "No suitable slots found within 30 minutes of your requested time." |})
      /\ book_table rt rn date time partySize w = (w, Return slot_unavailable)).
Proof.
  intros Hd Hp.
  rewrite (check_inherited rt rn date time partySize platform w read Hd Hp),
    (book_table_inherited rt rn date time partySize w read Hd Hp).
  split; [unfold slot_flag; now rewrite Hd|]. split.
  - intros s -> [c Hc]. rewrite Hc. simpl. eauto.
  - intros [->|(s & -> & ->)]; simpl; auto.
Qed.

Lemma check_on_an_inherited_date_witness :
  slot_flag (db initial_world) "constructor" "name" 2 = None
  /\ check_restaurant_availability demo None "constructor" "name" 2 None
       initial_world
     = (initial_world,
        Return {| available := true;
                  availableSlots :=
                    Some [ {| slot_time := "name"; isAvailable := true |} ];
                  availability_message := Some "Slot is available." |})
  /\ exists e,
       book_table demo None "constructor" "name" 2 initial_world
       = (initial_world, Throw e).
Proof.
  destruct (check_on_an_inherited_date demo None "constructor" "name" 2 None
              initial_world (read_function "Object") eq_refl eq_refl)
    as (Hflag & Hstring & _).
  split; [exact Hflag|].
  apply (Hstring "Object"); [reflexivity | vm_compute; eauto].
Defined.
